(** * Increff report automation: request, poll, download

    A shallow embedding of [main] of [inventory_to_drive.py] and
    [returns_to_drive.py].  The two scripts share every line of the
    request / poll / download workflow; they differ in the payload they
    post and in the prefix of the file they write.

    Python values decoded from JSON are the type [pyval]; the network, the
    clock and the file system are an oracle ([world]) that answers each
    external call from the history of the calls made so far; the script is
    a function from the history to a result and the extended history.

    Left out: the [print] calls, the set-up of the session (cookies and
    headers), the inside of [upload_to_drive], which catches every
    exception, JSON numbers that are not integers, and the case mappings
    of [str.lower] outside ASCII.  Clock readings are rationals. *)

From Stdlib Require Import ZArith QArith List String Ascii Bool Lia.
From Stdlib Require Import DecimalString DecimalPos DecimalZ Lqa.
Import ListNotations.
Set Warnings "-register-all".
Local Open Scope string_scope.
Local Open Scope Z_scope.

(** ** Python values *)

(** What [resp.json()] can return.  Numbers are the integers; a JSON object
    is the list of its items, with distinct keys as [json.loads] builds
    it. *)
Inductive pyval : Type :=
| PNone
| PBool (b : bool)
| PInt (z : Z)
| PStr (s : string)
| PList (l : list pyval)
| PDict (m : list (string * pyval)).

(** [if v:] and [not v]. *)
Definition truthy (v : pyval) : bool :=
  match v with
  | PNone => false
  | PBool b => b
  | PInt z => negb (z =? 0)
  | PStr s => negb (s =? "")%string
  | PList l => match l with [] => false | _ => true end
  | PDict m => match m with [] => false | _ => true end
  end.

Fixpoint assoc (k : string) (m : list (string * pyval)) : option pyval :=
  match m with
  | [] => None
  | (k', v) :: m' => if (k =? k')%string then Some v else assoc k m'
  end.

(** [d.get(k)] on a dict: the value, or [None]. *)
Definition dict_get (m : list (string * pyval)) (k : string) : pyval :=
  match assoc k m with
  | Some v => v
  | None => PNone
  end.

Definition Z_of_bool (b : bool) : Z := if b then 1 else 0.

(** [a == b].  [bool] is a subclass of [int], so [True == 1]; lists compare
    item by item, dicts by keys whatever the order of the items. *)
Fixpoint py_eq (a b : pyval) {struct a} : bool :=
  match a, b with
  | PNone, PNone => true
  | PBool x, PBool y => Bool.eqb x y
  | PBool x, PInt z => Z_of_bool x =? z
  | PInt z, PBool y => z =? Z_of_bool y
  | PInt x, PInt y => x =? y
  | PStr s, PStr t => (s =? t)%string
  | PList l, PList l' =>
      (fix items (l l' : list pyval) {struct l} : bool :=
         match l, l' with
         | [], [] => true
         | x :: xs, y :: ys => py_eq x y && items xs ys
         | _, _ => false
         end) l l'
  | PDict m, PDict m' =>
      (List.length m =? List.length m')%nat &&
      (fix items (m : list (string * pyval)) {struct m} : bool :=
         match m with
         | [] => true
         | (k, v) :: r =>
             match assoc k m' with
             | Some v' => py_eq v v'
             | None => false
             end && items r
         end) m
  | _, _ => false
  end.

(** *** [str] and [repr] *)

Definition str_of_Z (z : Z) : string :=
  NilZero.string_of_int (Z.to_int z).

Fixpoint mem_ascii (c : ascii) (s : string) : bool :=
  match s with
  | EmptyString => false
  | String d s' => (c =? d)%char || mem_ascii c s'
  end.

Definition hex_digit (n : N) : ascii :=
  ascii_of_N (if (n <? 10)%N then 48 + n else 87 + n)%N.

(** One character inside [repr] of a string delimited by [q]. *)
Definition repr_char (q c : ascii) : string :=
  let n := N_of_ascii c in
  if (c =? "\")%char then "\\"
  else if (c =? q)%char then String "\" (String q "")
  else if (n =? 9)%N then "\t"
  else if (n =? 10)%N then "\n"
  else if (n =? 13)%N then "\r"
  else if ((n <? 32) || (n =? 127))%N
       then String "\" (String "x" (String (hex_digit (n / 16))
                                     (String (hex_digit (n mod 16)) "")))
  else String c "".

Fixpoint repr_chars (q : ascii) (s : string) : string :=
  match s with
  | EmptyString => ""
  | String c s' => repr_char q c ++ repr_chars q s'
  end.

Definition squote : ascii := "'"%char.
Definition dquote : ascii := ascii_of_N 34.

(** [repr(s)]: single quotes, unless [s] has a single quote and no double
    quote. *)
Definition repr_str (s : string) : string :=
  let q := if mem_ascii squote s && negb (mem_ascii dquote s)
           then dquote else squote in
  String q (repr_chars q s ++ String q "").

Fixpoint py_repr (v : pyval) : string :=
  match v with
  | PNone => "None"
  | PBool true => "True"
  | PBool false => "False"
  | PInt z => str_of_Z z
  | PStr s => repr_str s
  | PList l =>
      "[" ++
      (fix items (l : list pyval) : string :=
         match l with
         | [] => ""
         | [x] => py_repr x
         | x :: xs => py_repr x ++ ", " ++ items xs
         end) l ++ "]"
  | PDict m =>
      "{" ++
      (fix items (m : list (string * pyval)) : string :=
         match m with
         | [] => ""
         | [(k, x)] => repr_str k ++ ": " ++ py_repr x
         | (k, x) :: r => repr_str k ++ ": " ++ py_repr x ++ ", " ++ items r
         end) m ++ "}"
  end.

(** [str(v)], also what an f-string does to [v]. *)
Definition py_str (v : pyval) : string :=
  match v with
  | PStr s => s
  | _ => py_repr v
  end.

(** *** String operations of the script *)

Definition lower_ascii (c : ascii) : ascii :=
  let n := N_of_ascii c in
  if ((65 <=? n) && (n <=? 90))%N then ascii_of_N (n + 32) else c.

(** [s.lower()], on the ASCII letters. *)
Fixpoint lower (s : string) : string :=
  match s with
  | EmptyString => EmptyString
  | String c s' => String (lower_ascii c) (lower s')
  end.

(** [s.startswith(p)]. *)
Definition startswith (s p : string) : bool := String.prefix p s.

(** [p in s] for strings. *)
Fixpoint str_in (p s : string) : bool :=
  String.prefix p s ||
  match s with
  | EmptyString => false
  | String _ s' => str_in p s'
  end.

Fixpoint chars (s : string) : list pyval :=
  match s with
  | EmptyString => []
  | String c s' => PStr (String c "") :: chars s'
  end.

(** ** Exceptions *)

Inductive exn : Type :=
| RuntimeError (msg : string)      (* the script's own [raise] *)
| AttributeError                   (* [.get] or [.startswith] on a value without it *)
| TypeError                        (* iterating or indexing a scalar *)
| KeyError                         (* [d[0]] on a dict *)
| IndexError                       (* [s[0]] on an empty sequence *)
| JSONDecodeError                  (* [resp.json()] on a body that is not JSON *)
| RequestException (name : string) (* raised by [requests] *)
| OSError (name : string).         (* raised by [open] *)

(** [for x in v]: the items of a list, the keys of a dict, the characters
    of a string; anything else is not iterable. *)
Definition py_iter (v : pyval) : exn + list pyval :=
  match v with
  | PList l => inr l
  | PDict m => inr (map (fun kv => PStr (fst kv)) m)
  | PStr s => inr (chars s)
  | _ => inl TypeError
  end.

(** [v[0]]. *)
Definition getitem0 (v : pyval) : exn + pyval :=
  match v with
  | PList (x :: _) => inr x
  | PList [] => inl IndexError
  | PDict _ => inl KeyError
  | PStr (String c _) => inr (PStr (String c ""))
  | PStr EmptyString => inl IndexError
  | _ => inl TypeError
  end.

(** [v.get(k)]: only a dict has [get]. *)
Definition py_get (v : pyval) (k : string) : exn + pyval :=
  match v with
  | PDict m => inr (dict_get m k)
  | _ => inl AttributeError
  end.

(** ** Configuration *)

Definition BASE_URL : string := "https://agilitas.omni.increff.com".
Definition GENERATE_URL : string :=
  BASE_URL ++ "/reporting/api/standard/app-access/request-report".
Definition STATUS_URL : string :=
  BASE_URL ++ "/reporting/api/standard/request-report".
Definition DOWNLOAD_DIR : string := "./downloads".
Definition POLL_INTERVAL : Q := 2.
Definition MAX_WAIT_SECONDS : Q := 600.

(** ** The outside world *)

(** What the script reads of a [requests] response: [json] is the value of
    [resp.json()], [None] when it raises. *)
Record response : Type := {
  status_code : Z;
  text : string;
  json : option pyval
}.

(** A streamed response: the chunks [iter_content] yields and the
    exception, if any, it raises after them. *)
Record stream : Type := {
  stream_status : Z;
  iter_content : list string;
  stream_error : option string
}.

Record datetime : Type := {
  year : Z; month : Z; day : Z; hour : Z; minute : Z; second : Z
}.

(** The external calls of the script, in the order it makes them. *)
Inductive call : Type :=
| DatetimeNow                            (* [datetime.now()] *)
| SessionPost (url : string) (body : pyval) (* [session.post(url, json=body)] *)
| SessionGet (url : string)              (* [session.get(url)] *)
| TimeTime                               (* [time.time()] *)
| TimeSleep (secs : Q)                   (* [time.sleep(secs)] *)
| RequestsGet (url : pyval)              (* [requests.get(url, stream=True)] *)
| OpenWb (path : string)                 (* [open(path, "wb")] *)
| FileWrite (chunk : string)             (* [f.write(chunk)] *)
| UploadToDrive (path folder : string).  (* [upload_to_drive(path, folder)] *)

(** Each answer depends on the calls made before it.  [inl name] is the
    exception the library raises. *)
Record world : Type := {
  datetime_now : list call -> datetime;
  session_post : list call -> string -> pyval -> string + response;
  session_get : list call -> string -> string + response;
  time_time : list call -> Q;
  requests_get : list call -> pyval -> string + stream;
  open_wb : list call -> string -> option string;
  abspath : string -> string;
  GDRIVE_FOLDER_ID : option string
}.

(** ** The script as a state and error monad over the history *)

Inductive result (A : Type) : Type :=
| Ok (a : A)
| Raise (e : exn)
| OutOfFuel.
Arguments Ok {A} a.
Arguments Raise {A} e.
Arguments OutOfFuel {A}.

Definition M (A : Type) : Type := list call -> result A * list call.

Definition ret {A} (a : A) : M A := fun h => (Ok a, h).
Definition raise {A} (e : exn) : M A := fun h => (Raise e, h).
Definition out_of_fuel {A} : M A := fun h => (OutOfFuel, h).

Definition bind {A B} (m : M A) (k : A -> M B) : M B :=
  fun h =>
    match m h with
    | (Ok a, h') => k a h'
    | (Raise e, h') => (Raise e, h')
    | (OutOfFuel, h') => (OutOfFuel, h')
    end.

Declare Scope prog_scope.
Delimit Scope prog_scope with prog.
Notation "x <- m ;; k" := (bind m (fun x => k))
  (at level 61, m at next level, right associativity) : prog_scope.
Notation "m ;; k" := (bind m (fun _ => k))
  (at level 61, right associativity) : prog_scope.

(** A pure operation that can raise. *)
Definition lift {A} (r : exn + A) : M A :=
  match r with
  | inl e => raise e
  | inr a => ret a
  end.

(** [resp.json()]. *)
Definition resp_json (resp : response) : M pyval :=
  match json resp with
  | Some v => ret v
  | None => raise JSONDecodeError
  end.

(** ** Dates of the returns report *)

Definition pad2 (z : Z) : string :=
  if z <? 10 then "0" ++ str_of_Z z else str_of_Z z.

(** [d.strftime("%Y-%m-%d")]. *)
Definition strftime_date (d : datetime) : string :=
  str_of_Z (year d) ++ "-" ++ pad2 (month d) ++ "-" ++ pad2 (day d).

(** [d.strftime('%Y%m%d_%H%M%S')]. *)
Definition strftime_stamp (d : datetime) : string :=
  str_of_Z (year d) ++ pad2 (month d) ++ pad2 (day d) ++ "_" ++
  pad2 (hour d) ++ pad2 (minute d) ++ pad2 (second d).

Definition is_leap (y : Z) : bool :=
  ((y mod 4 =? 0) && negb (y mod 100 =? 0)) || (y mod 400 =? 0).

Definition days_in_month (y m : Z) : Z :=
  if m =? 2 then (if is_leap y then 29 else 28)
  else if (m =? 4) || (m =? 6) || (m =? 9) || (m =? 11) then 30
  else 31.

(** [now.replace(day=1) - timedelta(days=1)]. *)
Definition month_eve (now : datetime) : datetime :=
  let y := if month now =? 1 then year now - 1 else year now in
  let m := if month now =? 1 then 12 else month now - 1 in
  {| year := y; month := m; day := days_in_month y m;
     hour := hour now; minute := minute now; second := second now |}.

(** ** Payloads *)

Definition strs (l : list string) : pyval := PList (map PStr l).

Definition inventory_payload : pyval :=
  PDict [
    ("paramMap", PDict [
       ("fulfillmentLocations", strs ["1101210185"; "1101214370"; "1101205510"]);
       ("client", strs ["1101201064"; "1101210390"]);
       ("brand", strs []); ("QCStatus", strs []); ("GlobalSKUId", strs []);
       ("Style", strs []); ("EAN", strs []); ("VirtualSKU", strs []);
       ("ReservationPool", strs []); ("customSkuAttributes", strs [])]);
    ("timezone", PStr "Asia/Calcutta");
    ("reportId", PInt 106899);
    ("fileFormat", PStr "XLSX")].

Definition returns_payload (start_utc end_utc : string) : pyval :=
  PDict [
    ("paramMap", PDict [
       ("client", strs ["1101201064"; "1101210390"]);
       ("fulfillmentLocations", strs ["1101210185"; "1101214370"; "1101205510"]);
       ("childSKU", strs ["1. Child+Standalone SKUs (ITEM LEVEL)"]);
       ("returnsWithoutFwd", strs ["ALL"]);
       ("expectedReturns", strs ["ALL"]);
       ("retOrdID", strs []);
       ("returnCreatedFrom", strs [start_utc]);
       ("returnCreatedTo", strs [end_utc]);
       ("retOrdItemID", strs []);
       ("returnProcessedFrom", strs []);
       ("returnProcessedTo", strs []);
       ("returnGateEntryId", strs []);
       ("returnGateEntryCreatedFrom", strs []);
       ("returnGateEntryCreatedTo", strs []);
       ("returnGateEntryItemId", strs []);
       ("outwardOrderId", strs []);
       ("uploadedChOrdID", strs []);
       ("roStatus", strs []);
       ("salesChannel", strs []);
       ("brand", strs []);
       ("standardSkuAttributes", strs []);
       ("customSkuAttributes", strs []);
       ("customReturnOrderAttribute", strs []);
       ("CustomReturnOrderItemAttributes", strs [])]);
    ("timezone", PStr "Asia/Calcutta");
    ("reportId", PInt 107071);
    ("fileFormat", PStr "XLSX")].

(** ** Pure steps of [main] *)

(** [os.path.join(DOWNLOAD_DIR, filename)], [filename] being [prefix], the
    time stamp and [".xlsx"]. *)
Definition file_path_at (prefix : string) (stamp : datetime) : string :=
  let filename := prefix ++ strftime_stamp stamp ++ ".xlsx" in
  DOWNLOAD_DIR ++ "/" ++ filename.

Definition session_expired : string := "🔒 Session expired or unauthorized".
Definition redirected_to_login : string := "🔒 Redirected to login page".
Definition no_request_id : string := "❌ Could not determine requestId".

(** [resp.status_code in (401, 403)]. *)
Definition unauthorized (resp : response) : bool :=
  (status_code resp =? 401) || (status_code resp =? 403).

(** ["login" in resp.text.lower()]. *)
Definition login_page (resp : response) : bool :=
  str_in "login" (lower (text resp)).

Definition assert_session_alive (resp : response) : M unit :=
  if unauthorized resp then raise (RuntimeError session_expired)
  else if login_page resp then raise (RuntimeError redirected_to_login)
  else ret tt.

(** [resp.json().get("id")] under [try ... except: pass]: [None] when the
    body is not JSON or not a dict, the bare [except] swallowing the
    error. *)
Definition body_id (resp : response) : pyval :=
  match json resp with
  | Some (PDict m) => dict_get m "id"
  | _ => PNone
  end.

(** [resp.status_code in (200, 201, 204)]. *)
Definition accepted (resp : response) : bool :=
  (status_code resp =? 200) || (status_code resp =? 201)
  || (status_code resp =? 204).

(** [request_id] before the fallback: the body's ["id"] when the status is
    200, 201 or 204 and the body is not empty. *)
Definition response_id (resp : response) : pyval :=
  if accepted resp && negb (text resp =? "")%string
  then body_id resp
  else PNone.

(** [next((x for x in items if x.get("requestId") == request_id), None)]:
    the first match; an item before it that is not a dict raises. *)
Fixpoint first_match (request_id : pyval) (items : list pyval)
  : exn + option pyval :=
  match items with
  | [] => inr None
  | x :: rest =>
      match py_get x "requestId" with
      | inl e => inl e
      | inr v => if py_eq v request_id then inr (Some x)
                 else first_match request_id rest
      end
  end.

Definition find_target (reports request_id : pyval) : exn + option pyval :=
  match py_iter reports with
  | inl e => inl e
  | inr items => first_match request_id items
  end.

(** [val.get("status") if isinstance(val, dict) else str(val)]. *)
Definition normalize (val : pyval) : pyval :=
  match val with
  | PDict m => dict_get m "status"
  | _ => PStr (py_str val)
  end.

(** [download_url.startswith("http")]: [None] and the other values that
    are not strings have no [startswith]. *)
Definition url_ready (download_url : pyval) : exn + bool :=
  match download_url with
  | PStr s => inr (startswith s "http")
  | _ => inl AttributeError
  end.

Definition Qltb (x y : Q) : bool := negb (Qle_bool y x).

(** ** [main] *)

Section Script.

Variable w : world.

Local Open Scope prog_scope.

(** An external call: appended to the history, answered by the world. *)
Definition now_ : M datetime :=
  fun h => (Ok (datetime_now w h), (h ++ [DatetimeNow])%list).

Definition post (url : string) (body : pyval) : M response :=
  fun h =>
    match session_post w h url body with
    | inl name => (Raise (RequestException name), (h ++ [SessionPost url body])%list)
    | inr resp => (Ok resp, (h ++ [SessionPost url body])%list)
    end.

Definition get (url : string) : M response :=
  fun h =>
    match session_get w h url with
    | inl name => (Raise (RequestException name), (h ++ [SessionGet url])%list)
    | inr resp => (Ok resp, (h ++ [SessionGet url])%list)
    end.

Definition time : M Q :=
  fun h => (Ok (time_time w h), (h ++ [TimeTime])%list).

Definition sleep (secs : Q) : M unit :=
  fun h => (Ok tt, (h ++ [TimeSleep secs])%list).

Definition download (url : pyval) : M stream :=
  fun h =>
    match requests_get w h url with
    | inl name => (Raise (RequestException name), (h ++ [RequestsGet url])%list)
    | inr r => (Ok r, (h ++ [RequestsGet url])%list)
    end.

Definition open_ (path : string) : M unit :=
  fun h =>
    match open_wb w h path with
    | Some name => (Raise (OSError name), (h ++ [OpenWb path])%list)
    | None => (Ok tt, (h ++ [OpenWb path])%list)
    end.

Definition write (chunk : string) : M unit :=
  fun h => (Ok tt, (h ++ [FileWrite chunk])%list).

Definition upload_to_drive (file_path folder_id : string) : M unit :=
  fun h => (Ok tt, (h ++ [UploadToDrive file_path folder_id])%list).

(** The fallback: the ["requestId"] of [reports[0]] of the status listing,
    [request_id] unchanged when the listing is empty. *)
Definition first_listed (request_id : pyval) : M pyval :=
  status_resp <- get STATUS_URL ;;
  reports <- resp_json status_resp ;;
  if truthy reports then
    first <- lift (getitem0 reports) ;;
    lift (py_get first "requestId")
  else ret request_id.

(** The request: post, check the session, take the id of the body or that
    of the first report of the listing. *)
Definition submit (payload : pyval) : M pyval :=
  resp <- post GENERATE_URL payload ;;
  assert_session_alive resp ;;
  let request_id := response_id resp in
  request_id <-
    (if negb (truthy request_id) then first_listed request_id
     else ret request_id) ;;
  if negb (truthy request_id) then raise (RuntimeError no_request_id)
  else ret request_id.

(** What one turn of the [while] body decides. *)
Inductive turn : Type :=
| Break (download_url : pyval)
| Continue (download_url : pyval).

(** [if target: ...]: the detail call when the entry is COMPLETED. *)
Definition inspect (request_id download_url : pyval) (target : option pyval)
  : M turn :=
  match target with
  | Some target =>
      if truthy target then
        status <- lift (py_get target "status") ;;
        if py_eq status (PStr "COMPLETED") then
          detail_resp <- get (STATUS_URL ++ "/" ++ py_str request_id) ;;
          val <- resp_json detail_resp ;;
          let download_url := normalize val in
          ready <- lift (url_ready download_url) ;;
          if ready then ret (Break download_url)
          else ret (Continue download_url)
        else ret (Continue download_url)
      else ret (Continue download_url)
  | None => ret (Continue download_url)
  end.

(** The body of the [while], up to [time.sleep]. *)
Definition poll_body (request_id download_url : pyval) : M turn :=
  r <- get STATUS_URL ;;
  reports <- resp_json r ;;
  target <- lift (find_target reports request_id) ;;
  inspect request_id download_url target.

(** [while time.time() - start_time < MAX_WAIT_SECONDS: ...]; [fuel] bounds
    the number of turns. *)
Fixpoint poll (fuel : nat) (request_id : pyval) (start_time : Q)
  (download_url : pyval) : M pyval :=
  match fuel with
  | O => out_of_fuel
  | S fuel' =>
      now <- time ;;
      if Qltb (now - start_time) MAX_WAIT_SECONDS then
        t <- poll_body request_id download_url ;;
        match t with
        | Break url => ret url
        | Continue url =>
            sleep POLL_INTERVAL ;;
            poll fuel' request_id start_time url
        end
      else ret download_url
  end.

Fixpoint write_all (chunks : list string) : M unit :=
  match chunks with
  | [] => ret tt
  | chunk :: rest => write chunk ;; write_all rest
  end.

(** The download and the upload: [prefix] is ["inventory_report_"] or
    ["return_report_"]. *)
Definition retrieve (prefix : string) (download_url : pyval) : M unit :=
  stamp <- now_ ;;
  let file_path := file_path_at prefix stamp in
  r <- download download_url ;;
  open_ file_path ;;
  write_all (iter_content r) ;;
  match stream_error r with
  | Some name => raise (RequestException name)
  | None =>
      let abs_path := abspath w file_path in
      match GDRIVE_FOLDER_ID w with
      | Some folder =>
          if negb (folder =? "")%string
          then upload_to_drive abs_path folder
          else ret tt
      | None => ret tt
      end
  end.

(** The rest of [submit] once the session check has passed. *)
Definition resolve (resp : response) : M pyval :=
  request_id <-
    (if negb (truthy (response_id resp))
     then first_listed (response_id resp)
     else ret (response_id resp)) ;;
  if negb (truthy request_id) then raise (RuntimeError no_request_id)
  else ret request_id.

(** The rest of [main] once the request id is known. *)
Definition follow (prefix : string) (fuel : nat) (request_id : pyval)
  : M unit :=
  start_time <- time ;;
  download_url <- poll fuel request_id start_time PNone ;;
  retrieve prefix download_url.

(** Everything of [main] after the payload is built. *)
Definition run (prefix : string) (payload : pyval) (fuel : nat) : M unit :=
  request_id <- submit payload ;;
  follow prefix fuel request_id.

Definition inventory_main (fuel : nat) : M unit :=
  run "inventory_report_" inventory_payload fuel.

Definition returns_main (fuel : nat) : M unit :=
  now <- now_ ;;
  let start_utc := strftime_date (month_eve now) ++ "T18:30:00.000Z" in
  let end_utc := strftime_date now ++ "T18:29:59.000Z" in
  run "return_report_" (returns_payload start_utc end_utc) fuel.

End Script.

(** ** Scripted worlds *)

Definition is_listing_get (c : call) : bool :=
  match c with
  | SessionGet url => (url =? STATUS_URL)%string
  | _ => false
  end.

Definition is_sleep (c : call) : bool :=
  match c with
  | TimeSleep _ => true
  | _ => false
  end.

Definition count (p : call -> bool) (h : list call) : nat :=
  List.length (filter p h).

Definition quoted (s : string) : string :=
  String dquote (s ++ String dquote "").

Definition reply (code : Z) (body : string) (v : option pyval) : response :=
  {| status_code := code; text := body; json := v |}.

(** [requests.get] on a value with no scheme raises before any traffic. *)
Definition fetch (body : stream) (url : pyval) : string + stream :=
  match url with
  | PStr s => if startswith s "http" then inr body else inl "MissingSchema"
  | _ => inl "MissingSchema"
  end.

(** A world whose clock starts at 1000 and moves by [tick] seconds in each
    sleep, whose [n]-th status listing is [listing n] and whose detail
    call answers [detail]. *)
Definition scripted (tick : Z) (generation : string + response)
  (listing : nat -> string + response) (detail : string + response)
  (body : stream) : world :=
  {| datetime_now := fun _ =>
       {| year := 2026; month := 3; day := 1;
          hour := 9; minute := 5; second := 30 |};
     session_post := fun _ _ _ => generation;
     session_get := fun h url =>
       if (url =? STATUS_URL)%string then listing (count is_listing_get h)
       else detail;
     time_time := fun h => inject_Z (1000 + tick * Z.of_nat (count is_sleep h));
     requests_get := fun _ url => fetch body url;
     open_wb := fun _ _ => None;
     abspath := fun p => "/srv/increff" ++ substring 1 (String.length p) p;
     GDRIVE_FOLDER_ID := Some "folder-1" |}.

Definition entry (request_id : Z) (status : string) : pyval :=
  PDict [("requestId", PInt request_id); ("status", PStr status)].

Definition listing_of (l : list pyval) : string + response :=
  inr (reply 200 "[...]" (Some (PList l))).

Definition xlsx (code : Z) (chunks : list string) : stream :=
  {| stream_status := code; iter_content := chunks; stream_error := None |}.

(** The example of the specification: id 555, RUNNING then COMPLETED. *)
Definition world_example : world :=
  scripted 2
    (inr (reply 200 ("{" ++ quoted "id" ++ ": 555}")
            (Some (PDict [("id", PInt 555)]))))
    (fun n => match n with
              | O => listing_of [entry 7 "COMPLETED"; entry 555 "RUNNING"]
              | _ => listing_of [entry 7 "COMPLETED"; entry 555 "COMPLETED"]
              end)
    (inr (reply 200 (quoted "https://files/inv.xlsx")
            (Some (PStr "https://files/inv.xlsx"))))
    (xlsx 200 ["PK"; "data"]).

(** The report never leaves RUNNING. *)
Definition world_running : world :=
  scripted 2
    (inr (reply 200 ("{" ++ quoted "id" ++ ": 555}")
            (Some (PDict [("id", PInt 555)]))))
    (fun _ => listing_of [entry 555 "RUNNING"])
    (inr (reply 200 (quoted "RUNNING") (Some (PStr "RUNNING"))))
    (xlsx 200 ["PK"]).

(** The report completes at once and the file server answers 404. *)
Definition world_not_found : world :=
  scripted 2
    (inr (reply 200 ("{" ++ quoted "id" ++ ": 555}")
            (Some (PDict [("id", PInt 555)]))))
    (fun _ => listing_of [entry 555 "COMPLETED"])
    (inr (reply 200 (quoted "https://files/inv.xlsx")
            (Some (PStr "https://files/inv.xlsx"))))
    (xlsx 404 ["Not Found"]).


(** The request is accepted with status [code] and an empty body; the
    listing is [l]. *)
Definition world_no_body (code : Z) (l : list pyval) : world :=
  scripted 2
    (inr (reply code "" None))
    (fun _ => listing_of l)
    (inr (reply 200 (quoted "https://files/inv.xlsx")
            (Some (PStr "https://files/inv.xlsx"))))
    (xlsx 200 ["PK"]).

(** The report is COMPLETED and the detail call answers [val]; the clock
    moves by 250 seconds in each sleep. *)
Definition world_detail (val : pyval) : world :=
  scripted 250
    (inr (reply 200 ("{" ++ quoted "id" ++ ": 555}")
            (Some (PDict [("id", PInt 555)]))))
    (fun _ => listing_of [entry 7 "RUNNING"; entry 555 "COMPLETED"])
    (inr (reply 200 "..." (Some val)))
    (xlsx 200 ["PK"]).

(** ** The error taxonomy of the specification *)



(** The upload, made when [GDRIVE_FOLDER_ID] is set. *)
Definition uploads (w : world) (file_path : string) : list call :=
  match GDRIVE_FOLDER_ID w with
  | Some folder =>
      if negb (folder =? "")%string
      then [UploadToDrive (abspath w file_path) folder]
      else []
  | None => []
  end.

(** The calls of the poll loop. *)
Definition is_poll_call (c : call) : bool :=
  match c with
  | SessionGet _ | TimeSleep _ | TimeTime => true
  | _ => false
  end.

(** The calls that touch the local file. *)
Definition is_file_call (c : call) : bool :=
  match c with
  | OpenWb _ | FileWrite _ => true
  | _ => false
  end.

(** ** Predicates on steps *)



(** A step all of whose calls satisfy [P]. *)
Definition emits (P : call -> Prop) {A} (m : M A) : Prop :=
  forall h, exists t, snd (m h) = (h ++ t)%list /\ Forall P t.

(** A world in which every listing shows the entry of [request_id]
    COMPLETED and every detail call yields the string [s]. *)
Definition stalled (w : world) (request_id : pyval) (s : string) : Prop :=
  forall h, exists r reports m detail_resp val,
    session_get w (h ++ [TimeTime])%list STATUS_URL = inr r
    /\ json r = Some reports
    /\ find_target reports request_id = inr (Some (PDict m))
    /\ dict_get m "status" = PStr "COMPLETED"
    /\ session_get w (h ++ [TimeTime; SessionGet STATUS_URL])%list
         (STATUS_URL ++ "/" ++ py_str request_id) = inr detail_resp
    /\ json detail_resp = Some val
    /\ normalize val = PStr s.

(** ** Predicates on worlds and calls *)

(** The calls the poll loop may make for [request_id]: clock readings, GETs
    of the listing and of the detail of [request_id], sleeps of
    [POLL_INTERVAL]. *)
Definition poll_call_ok (request_id : pyval) (c : call) : Prop :=
  match c with
  | TimeTime => True
  | SessionGet url =>
      url = STATUS_URL \/ url = STATUS_URL ++ "/" ++ py_str request_id
  | TimeSleep secs => secs = POLL_INTERVAL
  | _ => False
  end.

(** A clock that never runs backwards and that a sleep of [POLL_INTERVAL]
    moves by [POLL_INTERVAL] at least. *)
Definition ticking (w : world) : Prop :=
  (forall h c, (time_time w h <= time_time w (h ++ [c])%list)%Q)
  /\ (forall h,
        (time_time w h + POLL_INTERVAL
         <= time_time w (h ++ [TimeSleep POLL_INTERVAL])%list)%Q).

(** A step that does not need fuel. *)
Definition fueled {A} (m : M A) : Prop :=
  forall h, fst (m h) <> OutOfFuel.

(** The turns the loop can make: [MAX_WAIT_SECONDS / POLL_INTERVAL]. *)
Definition MAX_TURNS : nat := 300.

Definition is_post (c : call) : bool :=
  match c with
  | SessionPost _ _ => true
  | _ => false
  end.

Definition is_upload (c : call) : bool :=
  match c with
  | UploadToDrive _ _ => true
  | _ => false
  end.

(** A step that uploads at most once: as its last call, after it has
    opened the file it uploads, and only when it ends well. *)
Definition uploads_last (w : world) (m : M unit) : Prop :=
  forall h, exists t u,
    snd (m h) = (h ++ t ++ u)%list
    /\ Forall (fun c => is_upload c = false) t
    /\ (u = []
        \/ exists file_path folder,
             u = [UploadToDrive (abspath w file_path) folder]
             /\ GDRIVE_FOLDER_ID w = Some folder /\ folder <> ""
             /\ In (OpenWb file_path) t
             /\ fst (m h) = Ok tt).

(** ** Calendar *)

(** A clock reading with a year of four digits. *)
Definition valid_datetime (d : datetime) : Prop :=
  1000 <= year d <= 9999 /\ 1 <= month d <= 12
  /\ 1 <= day d <= days_in_month (year d) (month d)
  /\ 0 <= hour d <= 23 /\ 0 <= minute d <= 59 /\ 0 <= second d <= 59.

(** ** The Google Drive helpers *)

(** [get_drive_service] and [upload_to_drive], the same in both scripts but
    for the text of one message.  The calls into the Google libraries and
    the file system are again answered by an oracle from the history. *)

Definition TOKEN_FILE : string := "token.json".

(** What the script reads of a [Credentials] object.  The object is always
    truthy: [not creds] holds for [None] only. *)
Record credentials : Type := {
  valid : bool;
  expired : bool;
  refresh_token : option string;
  to_json : string
}.

(** [bool(s)] for an optional string: [None] and the empty string are
    false. *)
Definition truthy_str (s : option string) : bool :=
  match s with
  | Some t => negb (t =? "")%string
  | None => false
  end.

Inductive drive_exn : Type :=
| FileNotFoundError (msg : string) (* the script's own [raise] *)
| PathTypeError                    (* [os.path.exists(None)] *)
| DriveError (name : string).      (* raised by a library or by [open] *)

Inductive drive_call : Type :=
| PathExists (path : option string)      (* [os.path.exists(path)] *)
| FromAuthorizedUserFile (path : string) (* [Credentials.from_authorized_user_file] *)
| Refresh                                (* [creds.refresh(Request())] *)
| FromClientSecretsFile (path : string)  (* [InstalledAppFlow.from_client_secrets_file] *)
| RunLocalServer                         (* [flow.run_local_server(port=0)] *)
| OpenToken (path : string)              (* [open(TOKEN_FILE, 'w')] *)
| TokenWrite (content : string)          (* [token.write(creds.to_json())] *)
| Build (creds : credentials)            (* [build('drive', 'v3', credentials=creds)] *)
| MediaFileUpload (path : string)        (* [MediaFileUpload(file_path, ...)] *)
| FilesCreate (name parent : string).    (* [service.files().create(...).execute()] *)

(** [inl name] and [Some name] are the exception raised. *)
Record drive_world : Type := {
  CLIENT_SECRETS_FILE : option string;
  path_exists : list drive_call -> string -> bool;
  from_authorized_user_file : list drive_call -> string + credentials;
  refresh : list drive_call -> credentials -> string + credentials;
  from_client_secrets_file : list drive_call -> string -> option string;
  run_local_server : list drive_call -> string + credentials;
  open_token : list drive_call -> option string;
  build : list drive_call -> credentials -> option string;
  media_file_upload : list drive_call -> string -> option string;
  files_create : list drive_call -> string -> string -> option string
}.

Inductive outcome (A : Type) : Type :=
| Done (a : A)
| Failed (e : drive_exn).
Arguments Done {A} a.
Arguments Failed {A} e.

Definition D (A : Type) : Type :=
  list drive_call -> outcome A * list drive_call.

Definition dret {A} (a : A) : D A := fun h => (Done a, h).
Definition dfail {A} (e : drive_exn) : D A := fun h => (Failed e, h).

Definition dbind {A B} (m : D A) (k : A -> D B) : D B :=
  fun h =>
    match m h with
    | (Done a, h') => k a h'
    | (Failed e, h') => (Failed e, h')
    end.

(** [try: m  except Exception: pass]. *)
Definition try_except (m : D unit) : D unit :=
  fun h =>
    match m h with
    | (Done a, h') => (Done a, h')
    | (Failed _, h') => (Done tt, h')
    end.

Declare Scope drive_scope.
Delimit Scope drive_scope with drive.
Notation "x <- m ;; k" := (dbind m (fun x => k))
  (at level 61, m at next level, right associativity) : drive_scope.
Notation "m ;; k" := (dbind m (fun _ => k))
  (at level 61, right associativity) : drive_scope.

(** [os.path.basename(p)]: what follows the last slash. *)
Fixpoint basename_from (acc p : string) : string :=
  match p with
  | EmptyString => acc
  | String c p' =>
      if (c =? "/")%char then basename_from "" p'
      else basename_from (acc ++ String c "") p'
  end.

Definition basename (p : string) : string := basename_from "" p.

Section Drive.

Variable dw : drive_world.

(** The sentence that ends the message of [FileNotFoundError]: it is
    [" Please download it from Google Cloud Console."] in the inventory
    script and empty in the returns script. *)
Variable advice : string.

Local Open Scope drive_scope.

(** A call that answers with a value or raises. *)
Definition ask {A} (c : drive_call) (answer : list drive_call -> string + A)
  : D A :=
  fun h =>
    match answer h with
    | inl name => (Failed (DriveError name), h ++ [c])%list
    | inr a => (Done a, h ++ [c])%list
    end.

(** A call that answers nothing or raises. *)
Definition tell (c : drive_call) (answer : list drive_call -> option string)
  : D unit :=
  fun h =>
    match answer h with
    | Some name => (Failed (DriveError name), h ++ [c])%list
    | None => (Done tt, h ++ [c])%list
    end.

(** [os.path.exists(path)]: a [TypeError] on [None]. *)
Definition exists_ (path : option string) : D bool :=
  fun h =>
    match path with
    | Some p => (Done (path_exists dw h p), h ++ [PathExists path])%list
    | None => (Failed PathTypeError, h ++ [PathExists path])%list
    end.

(** The [else] branch: the log-in in the browser. *)
Definition log_in : D credentials :=
  found <- exists_ (CLIENT_SECRETS_FILE dw) ;;
  match CLIENT_SECRETS_FILE dw with
  | Some secrets =>
      if negb found
      then dfail (FileNotFoundError
                    ("❌ Error: " ++ secrets ++ " not found." ++ advice))
      else
        tell (FromClientSecretsFile secrets)
             (fun h => from_client_secrets_file dw h secrets) ;;
        ask RunLocalServer (run_local_server dw)
  | None => dfail PathTypeError
  end.

(** [with open(TOKEN_FILE, 'w') as token: token.write(creds.to_json())]. *)
Definition save_token (creds : credentials) : D unit :=
  tell (OpenToken TOKEN_FILE) (open_token dw) ;;
  fun h => (Done tt, h ++ [TokenWrite (to_json creds)])%list.

Definition get_drive_service : D credentials :=
  found <- exists_ (Some TOKEN_FILE) ;;
  creds <- (if found
            then c <- ask (FromAuthorizedUserFile TOKEN_FILE)
                        (from_authorized_user_file dw) ;;
                 dret (Some c)
            else dret None) ;;
  creds <-
    (match creds with
     | Some c =>
         if valid c then dret c
         else
           c' <- (if expired c && truthy_str (refresh_token c)
                  then ask Refresh (fun h => refresh dw h c)
                  else log_in) ;;
           save_token c' ;;
           dret c'
     | None =>
         c' <- log_in ;;
         save_token c' ;;
         dret c'
     end) ;;
  tell (Build creds) (fun h => build dw h creds) ;;
  dret creds.

(** [upload_to_drive]: everything under [try], every exception caught. *)
Definition upload_to_drive_steps (file_path folder_id : string) : D unit :=
  try_except
    (service <- get_drive_service ;;
     tell (MediaFileUpload file_path)
          (fun h => media_file_upload dw h file_path) ;;
     tell (FilesCreate (basename file_path) folder_id)
          (fun h => files_create dw h (basename file_path) folder_id)).

End Drive.

(** The calls of the log-in: the look for the client secrets file, the
    flow and the browser. *)
Definition is_login_call (c : drive_call) : bool :=
  match c with
  | PathExists (Some p) => negb (p =? TOKEN_FILE)%string
  | PathExists None => true
  | FromClientSecretsFile _ | RunLocalServer => true
  | _ => false
  end.

Definition is_token_write (c : drive_call) : bool :=
  match c with
  | OpenToken _ | TokenWrite _ => true
  | _ => false
  end.

Definition is_files_create (c : drive_call) : bool :=
  match c with
  | FilesCreate _ _ => true
  | _ => false
  end.

(** A Drive world with a token file holding [stored], if any, whose
    refresh and log-in yield [fresh]; [secrets] says whether the client
    secrets file is there and [sends] whether the upload goes through. *)
Definition drive_scripted (stored : option credentials) (fresh : credentials)
  (secrets_path : option string) (secrets sends : bool) : drive_world :=
  {| CLIENT_SECRETS_FILE := secrets_path;
     path_exists := fun _ p =>
       if (p =? TOKEN_FILE)%string
       then match stored with Some _ => true | None => false end
       else secrets;
     from_authorized_user_file := fun _ =>
       match stored with
       | Some c => inr c
       | None => inl "FileNotFoundError"
       end;
     refresh := fun _ _ => inr fresh;
     from_client_secrets_file := fun _ _ => None;
     run_local_server := fun _ => inr fresh;
     open_token := fun _ => None;
     build := fun _ _ => None;
     media_file_upload := fun _ _ => None;
     files_create := fun _ _ _ => if sends then None else Some "HttpError" |}.

Definition token (is_valid is_expired : bool) (refresher : option string)
  (json_text : string) : credentials :=
  {| valid := is_valid; expired := is_expired;
     refresh_token := refresher; to_json := json_text |}.

(** * Properties *)

Local Open Scope list_scope.

(** ** The monad *)

Lemma bind_ok {A B} (m : M A) (k : A -> M B) h a h' :
  m h = (Ok a, h') -> bind m k h = k a h'.
Proof. intros E. unfold bind. now rewrite E. Qed.

Lemma bind_raise {A B} (m : M A) (k : A -> M B) h e h' :
  m h = (Raise e, h') -> bind m k h = (Raise e, h').
Proof. intros E. unfold bind. now rewrite E. Qed.


(** ** Which exceptions a step can raise *)










Section Quiet.

Variable w : world.









End Quiet.

(** ** External calls, one at a time *)

Section Steps.

Variable w : world.

Lemma post_ok h url body resp :
  session_post w h url body = inr resp ->
  post w url body h = (Ok resp, h ++ [SessionPost url body]).
Proof. intros E. unfold post. now rewrite E. Qed.

Lemma get_ok h url resp :
  session_get w h url = inr resp ->
  get w url h = (Ok resp, h ++ [SessionGet url]).
Proof. intros E. unfold get. now rewrite E. Qed.

Lemma resp_json_ok resp v h :
  json resp = Some v -> resp_json resp h = (Ok v, h).
Proof. intros E. unfold resp_json. now rewrite E. Qed.

Lemma assert_session_alive_ok resp h :
  unauthorized resp = false -> login_page resp = false ->
  assert_session_alive resp h = (Ok tt, h).
Proof. intros U L. unfold assert_session_alive. now rewrite U, L. Qed.

Lemma submit_alive payload h resp :
  session_post w h GENERATE_URL payload = inr resp ->
  unauthorized resp = false -> login_page resp = false ->
  submit w payload h = resolve w resp (h ++ [SessionPost GENERATE_URL payload]).
Proof.
  intros P U L. unfold submit.
  rewrite (bind_ok _ _ _ _ _ (post_ok _ _ _ _ P)).
  now rewrite (bind_ok _ _ _ _ _ (assert_session_alive_ok _ _ U L)).
Qed.




End Steps.

(** ** The claims *)

(** C6.  The detail response [{"status": u}] and the detail response that is
    the string [u] normalize to the same download URL, which is [u]. *)
Theorem normalize_form_insensitive (u : string) :
  normalize (PDict [("status", PStr u)]) = normalize (PStr u)
  /\ normalize (PStr u) = PStr u.
Proof. split; reflexivity. Qed.



Lemma response_id_no_body_id resp :
  truthy (body_id resp) = false -> truthy (response_id resp) = false.
Proof.
  intros B. unfold response_id.
  now destruct (accepted resp && negb (text resp =? "")%string).
Qed.

Lemma first_listed_ok w h rid status_resp m rest :
  session_get w h STATUS_URL = inr status_resp ->
  json status_resp = Some (PList (PDict m :: rest)) ->
  first_listed w rid h
  = (Ok (dict_get m "requestId"), h ++ [SessionGet STATUS_URL]).
Proof.
  intros G J. unfold first_listed.
  rewrite (bind_ok _ _ _ _ _ (get_ok _ _ _ _ G)).
  rewrite (bind_ok _ _ _ _ _ (resp_json_ok _ _ _ J)).
  reflexivity.
Qed.


(** C4.  When the session check passes and the body of the generation
    response carries no identifier, the submitter queries the status
    listing and the run goes on with the ["requestId"] of its first
    entry. *)
Theorem fallback_adopts_first_listed
  (w : world) (prefix : string) (payload : pyval) (fuel : nat)
  (h : list call) (resp status_resp : response)
  (m : list (string * pyval)) (rest : list pyval) :
  session_post w h GENERATE_URL payload = inr resp ->
  unauthorized resp = false -> login_page resp = false ->
  truthy (body_id resp) = false ->
  session_get w (h ++ [SessionPost GENERATE_URL payload]) STATUS_URL
  = inr status_resp ->
  json status_resp = Some (PList (PDict m :: rest)) ->
  truthy (dict_get m "requestId") = true ->
  submit w payload h
  = (Ok (dict_get m "requestId"),
     h ++ [SessionPost GENERATE_URL payload; SessionGet STATUS_URL])
  /\ run w prefix payload fuel h
     = follow w prefix fuel (dict_get m "requestId")
         (h ++ [SessionPost GENERATE_URL payload; SessionGet STATUS_URL]).
Proof.
  intros P U L B G J T.
  assert (S : submit w payload h
              = (Ok (dict_get m "requestId"),
                 h ++ [SessionPost GENERATE_URL payload;
                       SessionGet STATUS_URL])).
  { rewrite (submit_alive w payload h resp P U L). unfold resolve.
    rewrite (response_id_no_body_id resp B). simpl negb. cbv iota.
    rewrite (bind_ok _ _ _ _ _ (first_listed_ok w _ _ _ m rest G J)).
    rewrite T. simpl negb. cbv iota. unfold ret.
    now rewrite <- app_assoc. }
  split; [exact S | ].
  unfold run. now rewrite (bind_ok _ _ _ _ _ S).
Qed.

Lemma fallback_adopts_first_listed_witness :
  submit (world_no_body 204 [entry 42 "PENDING"; entry 41 "COMPLETED"])
    inventory_payload []
  = (Ok (PInt 42),
     [SessionPost GENERATE_URL inventory_payload; SessionGet STATUS_URL]).
Proof.
  exact (proj1 (fallback_adopts_first_listed
                  (world_no_body 204 [entry 42 "PENDING"; entry 41 "COMPLETED"])
                  "inventory_report_" inventory_payload 3 []
                  (reply 204 "" None)
                  (reply 200 "[...]"
                     (Some (PList [entry 42 "PENDING"; entry 41 "COMPLETED"])))
                  [("requestId", PInt 42); ("status", PStr "PENDING")]
                  [entry 41 "COMPLETED"]
                  eq_refl eq_refl eq_refl eq_refl eq_refl eq_refl eq_refl)).
Defined.



(** The fallback makes one call, the listing query, however it ends. *)
Lemma first_listed_trace w rid h :
  snd (first_listed w rid h) = h ++ [SessionGet STATUS_URL].
Proof.
  unfold first_listed. unfold bind at 1, get.
  destruct (session_get w h STATUS_URL) as [name | status_resp];
    [reflexivity | ].
  unfold bind at 1, resp_json.
  destruct (json status_resp) as [reports | ]; [ | reflexivity].
  unfold ret at 1.
  destruct (truthy reports); [ | reflexivity].
  unfold bind.
  destruct (getitem0 reports) as [e | first]; [reflexivity | ].
  simpl. now destruct (py_get first "requestId").
Qed.

(** C9.  A generation response whose status is neither 401 nor 403 and
    whose body has no "login", whatever the case, passes the session check
    and the submitter raises nothing on it: an identifier it yields is
    returned, and with a status other than 200, 201 and 204, a 500 for one,
    the response counts as carrying no identifier: the submitter then
    queries the status listing, its one further call, and takes the
    ["requestId"] of the first entry for the request id. *)
Theorem submit_step_raises_nothing
  (w : world) (payload : pyval) (h : list call) (resp : response) :
  session_post w h GENERATE_URL payload = inr resp ->
  status_code resp <> 401 -> status_code resp <> 403 ->
  str_in "login" (lower (text resp)) = false ->
  assert_session_alive resp (h ++ [SessionPost GENERATE_URL payload])
  = (Ok tt, h ++ [SessionPost GENERATE_URL payload])
  /\ (truthy (response_id resp) = true ->
      submit w payload h
      = (Ok (response_id resp), h ++ [SessionPost GENERATE_URL payload]))
  /\ (accepted resp = false ->
      response_id resp = PNone
      /\ snd (submit w payload h)
         = h ++ [SessionPost GENERATE_URL payload; SessionGet STATUS_URL]
      /\ (forall status_resp m rest,
            session_get w (h ++ [SessionPost GENERATE_URL payload]) STATUS_URL
            = inr status_resp ->
            json status_resp = Some (PList (PDict m :: rest)) ->
            truthy (dict_get m "requestId") = true ->
            submit w payload h
            = (Ok (dict_get m "requestId"),
               h ++ [SessionPost GENERATE_URL payload;
                     SessionGet STATUS_URL]))).
Proof.
  intros P N1 N3 L.
  assert (U : unauthorized resp = false).
  { unfold unauthorized. apply orb_false_iff.
    split; apply Z.eqb_neq; assumption. }
  split; [now apply assert_session_alive_ok | ].
  rewrite (submit_alive w payload h resp P U L). unfold resolve.
  split.
  - intros T. rewrite T. simpl negb. cbv iota.
    unfold bind, ret. now rewrite T.
  - intros A.
    assert (R : response_id resp = PNone).
    { unfold response_id. now rewrite A. }
    rewrite R. simpl negb. cbv iota.
    split; [reflexivity | split].
    + pose proof (first_listed_trace w PNone
                    (h ++ [SessionPost GENERATE_URL payload])) as T.
      unfold bind.
      destruct (first_listed w PNone (h ++ [SessionPost GENERATE_URL payload]))
        as [[rid | e | ] h2]; simpl in T; subst h2;
        rewrite <- app_assoc; [ | reflexivity | reflexivity].
      now destruct (negb (truthy rid)).
    + intros status_resp m rest G J T.
      rewrite (bind_ok _ _ _ _ _ (first_listed_ok w _ _ _ m rest G J)).
      rewrite T. simpl negb. cbv iota. unfold ret.
      now rewrite <- app_assoc.
Qed.

Lemma submit_step_raises_nothing_witness :
  snd (submit (world_no_body 500 [entry 42 "PENDING"]) inventory_payload [])
  = [] ++ [SessionPost GENERATE_URL inventory_payload; SessionGet STATUS_URL]
  /\ submit (world_no_body 500 [entry 42 "PENDING"]) inventory_payload []
     = (Ok (PInt 42),
        [] ++ [SessionPost GENERATE_URL inventory_payload;
               SessionGet STATUS_URL]).
Proof.
  assert (N1 : status_code (reply 500 "" None) <> 401) by discriminate.
  assert (N3 : status_code (reply 500 "" None) <> 403) by discriminate.
  destruct (submit_step_raises_nothing
              (world_no_body 500 [entry 42 "PENDING"])
              inventory_payload [] (reply 500 "" None)
              eq_refl N1 N3 eq_refl) as (_ & _ & F).
  destruct (F eq_refl) as (_ & T & A).
  split; [exact T | ].
  exact (A (reply 200 "[...]" (Some (PList [entry 42 "PENDING"])))
           [("requestId", PInt 42); ("status", PStr "PENDING")] []
           eq_refl eq_refl eq_refl).
Defined.

(** ** The poll loop *)

Lemma first_match_skips rid pre items :
  Forall (fun d => py_eq (dict_get d "requestId") rid = false) pre ->
  first_match rid (map PDict pre ++ items) = first_match rid items.
Proof.
  induction 1 as [ | d pre N _ IH]; simpl; [reflexivity | ].
  now rewrite N.
Qed.

Lemma first_match_select rid pre m post :
  Forall (fun d => py_eq (dict_get d "requestId") rid = false) pre ->
  py_eq (dict_get m "requestId") rid = true ->
  first_match rid (map PDict pre ++ PDict m :: post) = inr (Some (PDict m)).
Proof.
  intros N E. rewrite (first_match_skips rid pre _ N). simpl. now rewrite E.
Qed.

Lemma first_match_none rid entries :
  Forall (fun d => py_eq (dict_get d "requestId") rid = false) entries ->
  first_match rid (map PDict entries) = inr None.
Proof.
  intros N. rewrite <- (app_nil_r (map PDict entries)).
  now rewrite (first_match_skips rid entries [] N).
Qed.

Lemma completed_truthy m s : dict_get m "status" = PStr s -> truthy (PDict m) = true.
Proof. destruct m; [discriminate | reflexivity]. Qed.

Section Poll.

Variable w : world.

Lemma poll_enter fuel rid start url h :
  Qltb (time_time w h - start) MAX_WAIT_SECONDS = true ->
  poll w (S fuel) rid start url h
  = bind (poll_body w rid url)
      (fun t => match t with
                | Break u => ret u
                | Continue u =>
                    bind (sleep POLL_INTERVAL)
                      (fun _ => poll w fuel rid start u)
                end) (h ++ [TimeTime]).
Proof. intros T. simpl. unfold bind at 1, time. now rewrite T. Qed.

(** Past the deadline the loop ends with the value [download_url] has. *)
Lemma poll_deadline fuel rid start url h :
  Qltb (time_time w h - start) MAX_WAIT_SECONDS = false ->
  poll w (S fuel) rid start url h = (Ok url, h ++ [TimeTime]).
Proof. intros T. simpl. unfold bind, time. now rewrite T. Qed.

Lemma poll_body_select rid url h r reports target :
  session_get w h STATUS_URL = inr r ->
  json r = Some reports ->
  find_target reports rid = inr target ->
  poll_body w rid url h
  = inspect w rid url target (h ++ [SessionGet STATUS_URL]).
Proof.
  intros G J F. unfold poll_body.
  rewrite (bind_ok _ _ _ _ _ (get_ok _ _ _ _ G)).
  rewrite (bind_ok _ _ _ _ _ (resp_json_ok _ _ _ J)).
  rewrite F. reflexivity.
Qed.

(** The detail call on a COMPLETED entry. *)
Lemma inspect_completed rid url h m detail_resp val :
  dict_get m "status" = PStr "COMPLETED" ->
  session_get w h (STATUS_URL ++ "/" ++ py_str rid)%string = inr detail_resp ->
  json detail_resp = Some val ->
  inspect w rid url (Some (PDict m)) h
  = bind (lift (url_ready (normalize val)))
      (fun ready => if ready then ret (Break (normalize val))
                    else ret (Continue (normalize val)))
      (h ++ [SessionGet (STATUS_URL ++ "/" ++ py_str rid)%string]).
Proof.
  intros C G J. unfold inspect.
  rewrite (completed_truthy m _ C).
  unfold py_get, lift at 1. unfold bind at 1, ret at 1. rewrite C.
  change (py_eq (PStr "COMPLETED") (PStr "COMPLETED")) with true. cbv iota.
  rewrite (bind_ok _ _ _ _ _ (get_ok _ _ _ _ G)).
  rewrite (bind_ok _ _ _ _ _ (resp_json_ok _ _ _ J)).
  reflexivity.
Qed.

End Poll.

(** ** What the download step calls *)

Lemma emits_ret P {A} (a : A) : emits P (ret a).
Proof. intros h. exists []. split; [now rewrite app_nil_r | constructor]. Qed.

Lemma emits_raise P {A} e : emits P (@raise A e).
Proof. intros h. exists []. split; [now rewrite app_nil_r | constructor]. Qed.

Lemma emits_bind P {A B} (m : M A) (k : A -> M B) :
  emits P m -> (forall a, emits P (k a)) -> emits P (bind m k).
Proof.
  intros Hm Hk h. destruct (Hm h) as (t & E & F). unfold bind.
  destruct (m h) as [[a | e | ] h']; simpl in E; subst h'.
  - destruct (Hk a (h ++ t)) as (t' & E' & F').
    exists (t ++ t'). split; [now rewrite E', app_assoc | now apply Forall_app].
  - now exists t.
  - now exists t.
Qed.

Lemma emits_write_all (P : call -> Prop) chunks :
  (forall c, P (FileWrite c)) -> emits P (write_all chunks).
Proof.
  intros W. induction chunks as [ | c rest IH]; simpl; [apply emits_ret | ].
  apply emits_bind; [ | intros _; exact IH].
  intros h. exists [FileWrite c]. split; [reflexivity | ].
  constructor; [apply W | constructor].
Qed.

Lemma retrieve_emits w prefix url :
  emits (fun c => is_poll_call c = false) (retrieve w prefix url).
Proof.
  unfold retrieve.
  apply emits_bind.
  { intros h. exists [DatetimeNow]. split; [reflexivity | now repeat constructor]. }
  intros stamp. apply emits_bind.
  { intros h. exists [RequestsGet url]. unfold download.
    split; [now destruct (requests_get w h url) | now repeat constructor]. }
  intros r. apply emits_bind.
  { intros h. eexists [OpenWb _]. unfold open_.
    split; [now destruct (open_wb w h _) | now repeat constructor]. }
  intros _. apply emits_bind; [now apply emits_write_all | intros _].
  destruct (stream_error r); [apply emits_raise | ].
  destruct (GDRIVE_FOLDER_ID w) as [folder | ]; [ | apply emits_ret].
  destruct (negb _); [ | apply emits_ret].
  intros h. eexists [UploadToDrive _ _].
  split; [reflexivity | now repeat constructor].
Qed.

(** C7.  A turn of the poll loop fetches the whole listing at [STATUS_URL]
    and goes on with the first entry whose ["requestId"] equals the request
    id, wherever it stands among the entries; when no entry matches, the
    turn resolves nothing: the loop sleeps and polls again with
    [download_url] unchanged. *)
Theorem poll_selects_matching_entry
  (w : world) (fuel : nat) (request_id download_url : pyval) (start_time : Q)
  (h : list call) (r : response)
  (pre : list (list (string * pyval))) (post : list pyval) :
  Qltb (time_time w h - start_time) MAX_WAIT_SECONDS = true ->
  session_get w (h ++ [TimeTime]) STATUS_URL = inr r ->
  Forall (fun d => py_eq (dict_get d "requestId") request_id = false) pre ->
  (forall m,
     json r = Some (PList (map PDict pre ++ PDict m :: post)) ->
     py_eq (dict_get m "requestId") request_id = true ->
     find_target (PList (map PDict pre ++ PDict m :: post)) request_id
     = inr (Some (PDict m))
     /\ poll_body w request_id download_url (h ++ [TimeTime])
        = inspect w request_id download_url (Some (PDict m))
            (h ++ [TimeTime; SessionGet STATUS_URL]))
  /\ (json r = Some (PList (map PDict pre)) ->
      find_target (PList (map PDict pre)) request_id = inr None
      /\ poll w (S fuel) request_id start_time download_url h
         = poll w fuel request_id start_time download_url
             (h ++ [TimeTime; SessionGet STATUS_URL; TimeSleep POLL_INTERVAL])).
Proof.
  intros T G N. split.
  - intros m J E.
    pose proof (first_match_select request_id pre m post N E) as F.
    split; [exact F | ].
    rewrite (poll_body_select w _ download_url _ _ _ _ G J F).
    now rewrite <- app_assoc.
  - intros J.
    pose proof (first_match_none request_id pre N) as F.
    split; [exact F | ].
    rewrite (poll_enter w fuel _ _ _ _ T).
    unfold bind at 1.
    rewrite (poll_body_select w _ download_url _ _ _ _ G J F).
    unfold inspect, ret at 1, bind at 1, sleep.
    now rewrite <- !app_assoc.
Qed.

Lemma poll_selects_matching_entry_witness :
  poll_body world_example (PInt 555) PNone ([] ++ [TimeTime])
  = inspect world_example (PInt 555) PNone (Some (entry 555 "RUNNING"))
      ([] ++ [TimeTime; SessionGet STATUS_URL]).
Proof.
  refine (proj2 (proj1 (poll_selects_matching_entry world_example 3
                   (PInt 555) PNone 1000%Q []
                   (reply 200 "[...]"
                      (Some (PList [entry 7 "COMPLETED"; entry 555 "RUNNING"])))
                   [[("requestId", PInt 7); ("status", PStr "COMPLETED")]] []
                   eq_refl eq_refl _)
                 [("requestId", PInt 555); ("status", PStr "RUNNING")]
                 eq_refl eq_refl)).
  repeat constructor.
Defined.

Lemma poll_turn_completed w fuel rid start url0 h r reports m detail_resp val :
  Qltb (time_time w h - start) MAX_WAIT_SECONDS = true ->
  session_get w (h ++ [TimeTime]) STATUS_URL = inr r ->
  json r = Some reports ->
  find_target reports rid = inr (Some (PDict m)) ->
  dict_get m "status" = PStr "COMPLETED" ->
  session_get w (h ++ [TimeTime; SessionGet STATUS_URL])
    (STATUS_URL ++ "/" ++ py_str rid)%string = inr detail_resp ->
  json detail_resp = Some val ->
  poll w (S fuel) rid start url0 h
  = bind (lift (url_ready (normalize val)))
      (fun ready =>
         if ready then ret (normalize val)
         else bind (sleep POLL_INTERVAL)
                (fun _ => poll w fuel rid start (normalize val)))
      (h ++ [TimeTime; SessionGet STATUS_URL;
             SessionGet (STATUS_URL ++ "/" ++ py_str rid)%string]).
Proof.
  intros T G J F C G' J'.
  rewrite (poll_enter w fuel _ _ _ _ T).
  unfold bind at 1.
  rewrite (poll_body_select w _ url0 _ _ _ _ G J F).
  rewrite <- app_assoc in *. simpl app in *.
  rewrite (inspect_completed w _ url0 _ _ _ _ C G' J').
  rewrite <- app_assoc. simpl app.
  destruct (url_ready (normalize val)) as [e | [ | ]]; reflexivity.
Qed.

(** C8.  When, before the deadline, the entry of the request is COMPLETED
    and the detail call yields a URL that begins with the lower-case
    letters "http", as the URLs of the schemes http and https do, the
    loop ends in that turn with this URL as its one result; the last call
    of the loop is the detail call, and the download that follows makes no
    status query, reads no clock and does not sleep. *)
Theorem poll_returns_url_once
  (w : world) (prefix : string) (fuel : nat) (request_id download_url : pyval)
  (start_time : Q) (h : list call) (r detail_resp : response)
  (reports val : pyval) (m : list (string * pyval)) (url : string) :
  Qltb (time_time w h - start_time) MAX_WAIT_SECONDS = true ->
  session_get w (h ++ [TimeTime]) STATUS_URL = inr r ->
  json r = Some reports ->
  find_target reports request_id = inr (Some (PDict m)) ->
  dict_get m "status" = PStr "COMPLETED" ->
  session_get w (h ++ [TimeTime; SessionGet STATUS_URL])
    (STATUS_URL ++ "/" ++ py_str request_id)%string = inr detail_resp ->
  json detail_resp = Some val ->
  normalize val = PStr url ->
  startswith url "http" = true ->
  poll w (S fuel) request_id start_time download_url h
  = (Ok (PStr url),
     h ++ [TimeTime; SessionGet STATUS_URL;
           SessionGet (STATUS_URL ++ "/" ++ py_str request_id)%string])
  /\ forall h', exists t,
       snd (retrieve w prefix (PStr url) h') = h' ++ t
       /\ Forall (fun c => is_poll_call c = false) t.
Proof.
  intros T G J F C G' J' N S. split.
  - rewrite (poll_turn_completed w fuel _ _ download_url _ _ _ _ _ _
               T G J F C G' J').
    rewrite N. unfold url_ready, lift, bind, ret. now rewrite S.
  - apply retrieve_emits.
Qed.

Lemma poll_returns_url_once_witness :
  poll world_example 1 (PInt 555) 1000%Q PNone
    [TimeTime; SessionGet STATUS_URL; TimeSleep POLL_INTERVAL]
  = (Ok (PStr "https://files/inv.xlsx"),
     [TimeTime; SessionGet STATUS_URL; TimeSleep POLL_INTERVAL]
     ++ [TimeTime; SessionGet STATUS_URL;
         SessionGet (STATUS_URL ++ "/" ++ py_str (PInt 555))%string]).
Proof.
  exact (proj1 (poll_returns_url_once world_example "inventory_report_" 0
                  (PInt 555) PNone 1000%Q
                  [TimeTime; SessionGet STATUS_URL; TimeSleep POLL_INTERVAL]
                  (reply 200 "[...]"
                     (Some (PList [entry 7 "COMPLETED"; entry 555 "COMPLETED"])))
                  (reply 200 (quoted "https://files/inv.xlsx")
                     (Some (PStr "https://files/inv.xlsx")))
                  (PList [entry 7 "COMPLETED"; entry 555 "COMPLETED"])
                  (PStr "https://files/inv.xlsx")
                  [("requestId", PInt 555); ("status", PStr "COMPLETED")]
                  "https://files/inv.xlsx"
                  eq_refl eq_refl eq_refl eq_refl eq_refl eq_refl eq_refl
                  eq_refl eq_refl)).
Defined.

(** C8, as the claim has it, fails: the report is COMPLETED and the detail
    call answers, at the start of the wait, the URL [ftp://files/inv.xlsx],
    a URL with a scheme.  The loop does not return it in that turn: it
    sleeps, and queries the listing and the detail twice more, to leave at
    the deadline only.  The same holds of [HTTPS://files/inv.xlsx], the
    test of the prefix telling upper case from lower case. *)
Lemma other_scheme_is_polled_on :
  Qltb (time_time (world_detail (PStr "ftp://files/inv.xlsx")) [] - 1000)
    MAX_WAIT_SECONDS = true
  /\ find_target (PList [entry 7 "RUNNING"; entry 555 "COMPLETED"]) (PInt 555)
     = inr (Some (entry 555 "COMPLETED"))
  /\ normalize (PStr "ftp://files/inv.xlsx") = PStr "ftp://files/inv.xlsx"
  /\ poll (world_detail (PStr "ftp://files/inv.xlsx")) 4 (PInt 555) 1000%Q
       PNone []
     = (Ok (PStr "ftp://files/inv.xlsx"),
        [TimeTime; SessionGet STATUS_URL;
         SessionGet (STATUS_URL ++ "/555")%string; TimeSleep POLL_INTERVAL;
         TimeTime; SessionGet STATUS_URL;
         SessionGet (STATUS_URL ++ "/555")%string; TimeSleep POLL_INTERVAL;
         TimeTime; SessionGet STATUS_URL;
         SessionGet (STATUS_URL ++ "/555")%string; TimeSleep POLL_INTERVAL;
         TimeTime])
  /\ normalize (PStr "HTTPS://files/inv.xlsx") = PStr "HTTPS://files/inv.xlsx"
  /\ poll (world_detail (PStr "HTTPS://files/inv.xlsx")) 4 (PInt 555) 1000%Q
       PNone []
     = (Ok (PStr "HTTPS://files/inv.xlsx"),
        [TimeTime; SessionGet STATUS_URL;
         SessionGet (STATUS_URL ++ "/555")%string; TimeSleep POLL_INTERVAL;
         TimeTime; SessionGet STATUS_URL;
         SessionGet (STATUS_URL ++ "/555")%string; TimeSleep POLL_INTERVAL;
         TimeTime; SessionGet STATUS_URL;
         SessionGet (STATUS_URL ++ "/555")%string; TimeSleep POLL_INTERVAL;
         TimeTime]).
Proof. repeat split; vm_compute; reflexivity. Qed.

(** C10.  When a turn of the loop finds the entry of the request COMPLETED
    and the normalized detail value is a string that does not begin with
    "http", the turn raises nothing and does not leave the loop: it sleeps
    for [POLL_INTERVAL] and the loop goes on, with that string for
    [download_url]; the loop then ends at the first clock reading past the
    deadline, its result that string. *)
Theorem poll_continues_on_unready_url
  (w : world) (fuel : nat) (request_id download_url : pyval)
  (start_time : Q) (h : list call) (r detail_resp : response)
  (reports val : pyval) (m : list (string * pyval)) (s : string) :
  Qltb (time_time w h - start_time) MAX_WAIT_SECONDS = true ->
  session_get w (h ++ [TimeTime]) STATUS_URL = inr r ->
  json r = Some reports ->
  find_target reports request_id = inr (Some (PDict m)) ->
  dict_get m "status" = PStr "COMPLETED" ->
  session_get w (h ++ [TimeTime; SessionGet STATUS_URL])
    (STATUS_URL ++ "/" ++ py_str request_id)%string = inr detail_resp ->
  json detail_resp = Some val ->
  normalize val = PStr s ->
  startswith s "http" = false ->
  let h' := h ++ [TimeTime; SessionGet STATUS_URL;
                  SessionGet (STATUS_URL ++ "/" ++ py_str request_id)%string;
                  TimeSleep POLL_INTERVAL] in
  poll w (S fuel) request_id start_time download_url h
  = poll w fuel request_id start_time (PStr s) h'
  /\ (Qltb (time_time w h' - start_time) MAX_WAIT_SECONDS = false ->
      poll w (S (S fuel)) request_id start_time download_url h
      = (Ok (PStr s), h' ++ [TimeTime])).
Proof.
  intros T G J F C G' J' N NH h'.
  assert (E : forall fuel,
             poll w (S fuel) request_id start_time download_url h
             = poll w fuel request_id start_time (PStr s) h').
  { intros fuel0.
    rewrite (poll_turn_completed w fuel0 _ _ download_url _ _ _ _ _ _
               T G J F C G' J').
    rewrite N. unfold url_ready, lift, bind, ret, sleep. rewrite NH.
    unfold h'. now rewrite <- app_assoc. }
  split; [apply E | ].
  intros D. rewrite E. now apply poll_deadline.
Qed.

Lemma poll_continues_on_unready_url_witness :
  poll (world_detail (PStr "PENDING")) 3 (PInt 555) 1000%Q PNone []
  = poll (world_detail (PStr "PENDING")) 2 (PInt 555) 1000%Q (PStr "PENDING")
      ([] ++ [TimeTime; SessionGet STATUS_URL;
              SessionGet (STATUS_URL ++ "/" ++ py_str (PInt 555))%string;
              TimeSleep POLL_INTERVAL]).
Proof.
  exact (proj1 (poll_continues_on_unready_url (world_detail (PStr "PENDING")) 2
                  (PInt 555) PNone 1000%Q []
                  (reply 200 "[...]"
                     (Some (PList [entry 7 "RUNNING"; entry 555 "COMPLETED"])))
                  (reply 200 "..." (Some (PStr "PENDING")))
                  (PList [entry 7 "RUNNING"; entry 555 "COMPLETED"])
                  (PStr "PENDING")
                  [("requestId", PInt 555); ("status", PStr "COMPLETED")]
                  "PENDING"
                  eq_refl eq_refl eq_refl eq_refl eq_refl eq_refl eq_refl
                  eq_refl eq_refl)).
Defined.

(** C10, as the claim has it, fails: the report is COMPLETED and the detail
    call answers an object whose ["status"] is null, or one without
    ["status"]; the normalized value is [None], which does not begin with
    "http".  The turn raises [AttributeError] at the test of the prefix:
    the detail call is the last call of the loop, which neither sleeps nor
    goes on, and the run ends in that error. *)
Lemma null_detail_ends_the_loop :
  normalize (PDict [("status", PNone)]) = PNone
  /\ poll (world_detail (PDict [("status", PNone)])) 3 (PInt 555) 1000%Q
       PNone []
     = (Raise AttributeError,
        [TimeTime; SessionGet STATUS_URL;
         SessionGet (STATUS_URL ++ "/555")%string])
  /\ fst (inventory_main (world_detail (PDict [("status", PNone)])) 3 [])
     = Raise AttributeError
  /\ normalize (PDict []) = PNone
  /\ poll (world_detail (PDict [])) 3 (PInt 555) 1000%Q PNone []
     = (Raise AttributeError,
        [TimeTime; SessionGet STATUS_URL;
         SessionGet (STATUS_URL ++ "/555")%string]).
Proof. repeat split; vm_compute; reflexivity. Qed.

(** ** The download *)

Lemma write_all_run chunks h :
  write_all chunks h = (Ok tt, h ++ map FileWrite chunks).
Proof.
  revert h. induction chunks as [ | c rest IH]; intros h; simpl.
  - unfold ret. now rewrite app_nil_r.
  - unfold bind, write. rewrite IH. now rewrite <- app_assoc.
Qed.

(** C2, as the code has it.  [requests.get] raising is the one failure of
    the request: nothing is opened then.  Once a response arrives, its
    status is not looked at: the file is opened and every chunk the stream
    yields is written to it; the run fails only if the stream raises. *)
Theorem retrieve_outcomes
  (w : world) (prefix : string) (download_url : pyval) (h : list call) :
  let file_path := file_path_at prefix (datetime_now w h) in
  let h1 := h ++ [DatetimeNow; RequestsGet download_url] in
  match requests_get w (h ++ [DatetimeNow]) download_url with
  | inl name =>
      retrieve w prefix download_url h = (Raise (RequestException name), h1)
  | inr r =>
      match open_wb w h1 file_path with
      | Some name =>
          retrieve w prefix download_url h
          = (Raise (OSError name), h1 ++ [OpenWb file_path])
      | None =>
          retrieve w prefix download_url h
          = match stream_error r with
            | Some name =>
                (Raise (RequestException name),
                 h1 ++ OpenWb file_path :: map FileWrite (iter_content r))
            | None =>
                (Ok tt,
                 h1 ++ OpenWb file_path :: map FileWrite (iter_content r)
                    ++ uploads w file_path)
            end
      end
  end.
Proof.
  intros file_path h1. unfold retrieve.
  rewrite (bind_ok _ _ h _ _ (eq_refl (now_ w h))).
  fold file_path.
  assert (H1 : (h ++ [DatetimeNow]) ++ [RequestsGet download_url] = h1)
    by (unfold h1; now rewrite <- app_assoc).
  destruct (requests_get w (h ++ [DatetimeNow]) download_url) as [name | r]
    eqn:D.
  - apply bind_raise. unfold download. now rewrite D, H1.
  - assert (E : download w download_url (h ++ [DatetimeNow]) = (Ok r, h1))
      by (unfold download; now rewrite D, H1).
    rewrite (bind_ok _ _ _ _ _ E).
    destruct (open_wb w h1 file_path) as [name | ] eqn:O.
    + apply bind_raise. unfold open_. now rewrite O.
    + assert (E' : open_ w file_path h1 = (Ok tt, h1 ++ [OpenWb file_path]))
        by (unfold open_; now rewrite O).
      rewrite (bind_ok _ _ _ _ _ E').
      rewrite (bind_ok _ _ _ _ _ (write_all_run _ _)).
      rewrite <- app_assoc. simpl app.
      destruct (stream_error r) as [name | ]; [reflexivity | ].
      unfold uploads.
      destruct (GDRIVE_FOLDER_ID w) as [folder | ].
      * destruct (negb (folder =? "")%string).
        -- unfold upload_to_drive.
           now rewrite <- app_assoc.
        -- unfold ret. now rewrite app_nil_r.
      * unfold ret. now rewrite app_nil_r.
Qed.

(** C2, as the claim has it, fails: the file server answers 404 and the
    script writes the body of the error to the report file and ends
    without an error. *)
Lemma not_found_is_written :
  requests_get world_not_found [DatetimeNow] (PStr "https://files/inv.xlsx")
  = inr (xlsx 404 ["Not Found"])
  /\ retrieve world_not_found "inventory_report_"
       (PStr "https://files/inv.xlsx") []
     = (Ok tt,
        [DatetimeNow; RequestsGet (PStr "https://files/inv.xlsx");
         OpenWb "./downloads/inventory_report_20260301_090530.xlsx";
         FileWrite "Not Found";
         UploadToDrive
           "/srv/increff/downloads/inventory_report_20260301_090530.xlsx"
           "folder-1"])
  /\ fst (inventory_main world_not_found 3 []) = Ok tt.
Proof. repeat split; vm_compute; reflexivity. Qed.

(** ** The deadline *)

(** Whatever [download_url] holds, the download step passes it to
    [requests.get]. *)
Lemma retrieve_requests w prefix download_url h :
  exists t, snd (retrieve w prefix download_url h)
            = h ++ DatetimeNow :: RequestsGet download_url :: t.
Proof.
  unfold retrieve.
  rewrite (bind_ok _ _ h _ _ (eq_refl (now_ w h))).
  unfold bind at 1, download.
  destruct (requests_get w (h ++ [DatetimeNow]) download_url) as [name | r].
  - exists []. simpl. now rewrite <- app_assoc.
  - match goal with
    | |- context [snd (?m ?h0)] =>
        assert (E : emits (fun _ => True) m)
    end.
    { apply emits_bind.
      { intros h0. eexists [OpenWb _]. unfold open_.
        split; [now destruct (open_wb w h0 _) | now repeat constructor]. }
      intros _. apply emits_bind; [now apply emits_write_all | intros _].
      destruct (stream_error r); [apply emits_raise | ].
      destruct (GDRIVE_FOLDER_ID w) as [folder | ]; [ | apply emits_ret].
      destruct (negb _); [ | apply emits_ret].
      intros h0. eexists [UploadToDrive _ _].
      split; [reflexivity | now repeat constructor]. }
    destruct (E ((h ++ [DatetimeNow]) ++ [RequestsGet download_url]))
      as (t & Et & _).
    exists t. rewrite Et. now rewrite <- !app_assoc.
Qed.

(** When the deadline has passed at a test of the loop, the script goes on
    to the download with the value [download_url] has then: [None] if no
    turn has seen the report COMPLETED. *)
Lemma deadline_falls_through w prefix fuel rid start download_url h :
  Qltb (time_time w h - start) MAX_WAIT_SECONDS = false ->
  exists t,
    snd (bind (poll w (S fuel) rid start download_url) (retrieve w prefix) h)
    = h ++ TimeTime :: DatetimeNow :: RequestsGet download_url :: t.
Proof.
  intros D. rewrite (bind_ok _ _ _ _ _ (poll_deadline w fuel _ _ _ _ D)).
  destruct (retrieve_requests w prefix download_url (h ++ [TimeTime]))
    as (t & E).
  exists t. rewrite E. now rewrite <- app_assoc.
Qed.

(** C1, on the code.  The report stays RUNNING and the clock moves by the
    two seconds of each sleep: after 300 polls the loop ends at the
    deadline with [download_url] still [None], and the script, raising
    nothing of its own, calls [requests.get(None)]; the run ends on the
    exception of the library. *)
Theorem timeout_downloads_unresolved :
  let out := inventory_main world_running 301 [] in
  fst out = Raise (RequestException "MissingSchema")
  /\ count is_listing_get (snd out) = 300%nat
  /\ last (snd out) TimeTime = RequestsGet PNone.
Proof. vm_compute. repeat split. Qed.

(** In a stalled world whose detail value does not begin with "http", the
    loop raises nothing and is left only at a clock reading past the
    deadline. *)
Lemma stalled_poll_leaves_at_deadline w rid s start :
  stalled w rid s -> startswith s "http" = false ->
  forall fuel url h,
    match poll w fuel rid start url h with
    | (Ok u, h') =>
        exists h'', h' = h'' ++ [TimeTime]
                    /\ Qltb (time_time w h'' - start) MAX_WAIT_SECONDS = false
                    /\ (u = url \/ u = PStr s)
    | (Raise _, _) => False
    | (OutOfFuel, _) => True
    end.
Proof.
  intros W N. induction fuel as [ | fuel IH]; intros url h; [exact I | ].
  destruct (Qltb (time_time w h - start) MAX_WAIT_SECONDS) eqn:T.
  - destruct (W h) as (r & reports & m & d & val & G & J & F & C & G' & J' & V).
    rewrite (poll_turn_completed w fuel _ _ url _ _ _ _ _ _ T G J F C G' J').
    rewrite V. unfold url_ready, lift, bind, ret, sleep. rewrite N.
    specialize (IH (PStr s)
      ((h ++ [TimeTime; SessionGet STATUS_URL;
              SessionGet (STATUS_URL ++ "/" ++ py_str rid)%string])
       ++ [TimeSleep POLL_INTERVAL])).
    destruct (poll w fuel rid start (PStr s) _) as [[u | e | ] h'];
      [ | exact IH | exact I].
    destruct IH as (h'' & E & D & [U | U]); exists h''; auto.
  - rewrite (poll_deadline w fuel _ _ _ _ T).
    exists h. auto.
Qed.

Example py_eq_bool_int : py_eq (PBool true) (PInt 1) = true.
Proof. reflexivity. Qed.

Example py_str_list :
  py_str (PList [PInt 1; PStr "a'b"; PNone; PDict [("k", PBool true)]])
  = ("[1, " ++ quoted "a'b" ++ ", None, {'k': True}]")%string.
Proof. reflexivity. Qed.

Example str_in_login : str_in "login" (lower "<a href=/LogIn>") = true.
Proof. reflexivity. Qed.

(** The example of the specification, to the upload. *)
Example inventory_example :
  fst (inventory_main world_example 3 []) = Ok tt
  /\ skipn 8 (snd (inventory_main world_example 3 []))
     = [DatetimeNow; RequestsGet (PStr "https://files/inv.xlsx");
        OpenWb "./downloads/inventory_report_20260301_090530.xlsx";
        FileWrite "PK"; FileWrite "data";
        UploadToDrive
          "/srv/increff/downloads/inventory_report_20260301_090530.xlsx"
          "folder-1"].
Proof. split; vm_compute; reflexivity. Qed.

(** * Further properties of the scripts *)

(** ** The calls of the poll loop *)

Lemma bind_ok_inv {A B} (m : M A) (k : A -> M B) h b h' :
  bind m k h = (Ok b, h') ->
  exists a h1, m h = (Ok a, h1) /\ k a h1 = (Ok b, h').
Proof.
  unfold bind. destruct (m h) as [[a | e | ] h1]; intros E;
    [now exists a, h1 | discriminate | discriminate].
Qed.

Lemma emits_weaken (P Q : call -> Prop) {A} (m : M A) :
  (forall c, P c -> Q c) -> emits P m -> emits Q m.
Proof.
  intros PQ E h. destruct (E h) as (t & Et & F).
  exists t. split; [exact Et | ]. eapply Forall_impl; eauto.
Qed.

Lemma emits_lift P {A} (r : exn + A) : emits P (lift r).
Proof. destruct r; [apply emits_raise | apply emits_ret]. Qed.

Lemma emits_resp_json P resp : emits P (resp_json resp).
Proof.
  unfold resp_json. destruct (json resp); [apply emits_ret | apply emits_raise].
Qed.

Lemma emits_get (P : call -> Prop) w url :
  P (SessionGet url) -> emits P (get w url).
Proof.
  intros Pc h. exists [SessionGet url]. unfold get.
  split; [now destruct (session_get w h url) | now repeat constructor].
Qed.

Lemma emits_time (P : call -> Prop) w : P TimeTime -> emits P (time w).
Proof.
  intros Pc h. exists [TimeTime]. split; [reflexivity | now repeat constructor].
Qed.

Lemma emits_sleep (P : call -> Prop) secs :
  P (TimeSleep secs) -> emits P (sleep secs).
Proof.
  intros Pc h. exists [TimeSleep secs].
  split; [reflexivity | now repeat constructor].
Qed.

Lemma emits_poll_body w rid url :
  emits (poll_call_ok rid) (poll_body w rid url).
Proof.
  unfold poll_body.
  apply emits_bind; [apply emits_get; now left | intros r].
  apply emits_bind; [apply emits_resp_json | intros reports].
  apply emits_bind; [apply emits_lift | intros target].
  unfold inspect.
  destruct target as [target | ]; [ | apply emits_ret].
  destruct (truthy target); [ | apply emits_ret].
  apply emits_bind; [apply emits_lift | intros status].
  destruct (py_eq status (PStr "COMPLETED")); [ | apply emits_ret].
  apply emits_bind; [apply emits_get; now right | intros detail_resp].
  apply emits_bind; [apply emits_resp_json | intros val].
  apply emits_bind; [apply emits_lift | intros ready].
  destruct ready; apply emits_ret.
Qed.

(** X1.  Whatever the world answers, the poll loop only reads the clock,
    GETs the status listing or the detail of its own request and sleeps
    for [POLL_INTERVAL]: it never posts, downloads, writes or uploads, and
    queries the detail of no other request. *)
Theorem poll_calls_only_its_endpoints
  (w : world) (fuel : nat) (request_id download_url : pyval)
  (start_time : Q) (h : list call) :
  exists t,
    snd (poll w fuel request_id start_time download_url h) = h ++ t
    /\ Forall (poll_call_ok request_id) t.
Proof.
  revert download_url h.
  change (forall download_url,
             emits (poll_call_ok request_id)
               (poll w fuel request_id start_time download_url)).
  induction fuel as [ | fuel IH]; intros url; simpl.
  - intros h. exists []. split; [now rewrite app_nil_r | constructor].
  - apply emits_bind; [now apply emits_time | intros now].
    destruct (Qltb (now - start_time) MAX_WAIT_SECONDS); [ | apply emits_ret].
    apply emits_bind; [apply emits_poll_body | intros [u | u]].
    + apply emits_ret.
    + apply emits_bind; [now apply emits_sleep | intros _; apply IH].
Qed.

(** ** How the poll loop ends *)

Lemma lift_ok_inv {A} (r : exn + A) h a h' :
  lift r h = (Ok a, h') -> r = inr a /\ h' = h.
Proof.
  destruct r as [e | a0]; simpl; unfold raise, ret; intros E;
    [discriminate | now injection E as -> ->].
Qed.

Lemma resp_json_ok_inv resp h v h' :
  resp_json resp h = (Ok v, h') -> json resp = Some v /\ h' = h.
Proof.
  unfold resp_json. destruct (json resp) as [v0 | ]; unfold raise, ret;
    intros E; [now injection E as -> -> | discriminate].
Qed.

Lemma get_ok_inv w url h resp h' :
  get w url h = (Ok resp, h') ->
  session_get w h url = inr resp /\ h' = h ++ [SessionGet url].
Proof.
  unfold get. destruct (session_get w h url) as [name | r]; intros E;
    [discriminate | now injection E as -> <-].
Qed.

Lemma ret_ok_inv {A} (a b : A) h h' :
  ret a h = (Ok b, h') -> a = b /\ h' = h.
Proof. unfold ret. intros E. now injection E as -> ->. Qed.

(** The loop is left by [break] only with a string that begins with
    "http", straight after the detail call. *)
Lemma inspect_break w rid url target h u h' :
  inspect w rid url target h = (Ok (Break u), h') ->
  exists s, u = PStr s /\ startswith s "http" = true
            /\ h' = h ++ [SessionGet (STATUS_URL ++ "/" ++ py_str rid)%string].
Proof.
  unfold inspect.
  destruct target as [target | ];
    [ | intros E; apply ret_ok_inv in E; destruct E; discriminate].
  destruct (truthy target);
    [ | intros E; apply ret_ok_inv in E; destruct E; discriminate].
  intros E. apply bind_ok_inv in E. destruct E as (status & h1 & E1 & E).
  apply lift_ok_inv in E1. destruct E1 as [_ ->].
  destruct (py_eq status (PStr "COMPLETED"));
    [ | apply ret_ok_inv in E; destruct E; discriminate].
  apply bind_ok_inv in E. destruct E as (detail_resp & h2 & E2 & E).
  apply get_ok_inv in E2. destruct E2 as [_ ->].
  apply bind_ok_inv in E. destruct E as (val & h3 & E3 & E).
  apply resp_json_ok_inv in E3. destruct E3 as [_ ->].
  apply bind_ok_inv in E. destruct E as (ready & h4 & E4 & E).
  apply lift_ok_inv in E4. destruct E4 as [R ->].
  destruct ready; apply ret_ok_inv in E; destruct E as [E ->];
    [ | discriminate].
  injection E as <-.
  unfold url_ready in R. destruct (normalize val) as [ | | | s | | ];
    try discriminate.
  exists s. injection R as R. auto.
Qed.

Lemma poll_body_break w rid url h u h' :
  poll_body w rid url h = (Ok (Break u), h') ->
  exists s, u = PStr s /\ startswith s "http" = true
            /\ h' = h ++ [SessionGet STATUS_URL;
                          SessionGet (STATUS_URL ++ "/" ++ py_str rid)%string].
Proof.
  unfold poll_body. intros E.
  apply bind_ok_inv in E. destruct E as (r & h1 & E1 & E).
  apply get_ok_inv in E1. destruct E1 as [_ ->].
  apply bind_ok_inv in E. destruct E as (reports & h2 & E2 & E).
  apply resp_json_ok_inv in E2. destruct E2 as [_ ->].
  apply bind_ok_inv in E. destruct E as (target & h3 & E3 & E).
  apply lift_ok_inv in E3. destruct E3 as [_ ->].
  apply inspect_break in E. destruct E as (s & -> & S & ->).
  exists s. repeat split; auto. now rewrite <- app_assoc.
Qed.

(** X2.  The loop hands a value to the download step in two ways only:
    by [break], straight after a detail call, with a string that begins
    with "http"; or at a clock reading past the deadline.  Before the
    deadline it never returns an unresolved value. *)
Theorem poll_returns_ready_or_late
  (w : world) (fuel : nat) (request_id download_url : pyval)
  (start_time : Q) (h : list call) (u : pyval) (h' : list call) :
  poll w fuel request_id start_time download_url h = (Ok u, h') ->
  (exists s h0,
      u = PStr s /\ startswith s "http" = true
      /\ h' = h0 ++ [SessionGet STATUS_URL;
                     SessionGet (STATUS_URL ++ "/" ++ py_str request_id)%string])
  \/ (exists h0,
         h' = h0 ++ [TimeTime]
         /\ Qltb (time_time w h0 - start_time) MAX_WAIT_SECONDS = false).
Proof.
  revert download_url h.
  induction fuel as [ | fuel IH]; intros url h; simpl; [discriminate | ].
  intros E. apply bind_ok_inv in E. destruct E as (now & h1 & E1 & E).
  unfold time in E1. injection E1 as <- <-.
  destruct (Qltb (time_time w h - start_time) MAX_WAIT_SECONDS) eqn:T.
  - apply bind_ok_inv in E. destruct E as ([u1 | u1] & h2 & E2 & E).
    + apply ret_ok_inv in E. destruct E as [-> ->].
      apply poll_body_break in E2. destruct E2 as (s & -> & S & ->).
      left. now exists s, (h ++ [TimeTime]).
    + apply bind_ok_inv in E. destruct E as (_ & h3 & _ & E).
      exact (IH _ _ E).
  - apply ret_ok_inv in E. destruct E as [-> ->].
    right. now exists h.
Qed.

Lemma poll_returns_ready_or_late_witness :
  (exists s h0,
      PStr "https://files/inv.xlsx" = PStr s /\ startswith s "http" = true
      /\ [TimeTime; SessionGet STATUS_URL; TimeSleep POLL_INTERVAL; TimeTime;
          SessionGet STATUS_URL;
          SessionGet (STATUS_URL ++ "/" ++ py_str (PInt 555))%string]
         = h0 ++ [SessionGet STATUS_URL;
                  SessionGet (STATUS_URL ++ "/" ++ py_str (PInt 555))%string])
  \/ (exists h0,
         [TimeTime; SessionGet STATUS_URL; TimeSleep POLL_INTERVAL; TimeTime;
          SessionGet STATUS_URL;
          SessionGet (STATUS_URL ++ "/" ++ py_str (PInt 555))%string]
         = h0 ++ [TimeTime]
         /\ Qltb (time_time world_example h0 - 1000) MAX_WAIT_SECONDS = false).
Proof.
  exact (poll_returns_ready_or_late world_example 3 (PInt 555) PNone 1000%Q []
           (PStr "https://files/inv.xlsx") _ eq_refl).
Defined.

(** ** Termination of the poll loop *)

Lemma ticking_app w :
  ticking w -> forall t h, (time_time w h <= time_time w (h ++ t))%Q.
Proof.
  intros [Mono _]. induction t as [ | c t IH]; intros h.
  - rewrite app_nil_r. apply Qle_refl.
  - change (c :: t) with ([c] ++ t). rewrite app_assoc.
    eapply Qle_trans; [apply Mono | apply IH].
Qed.

Lemma fueled_ret {A} (a : A) : fueled (ret a).
Proof. intros h; discriminate. Qed.

Lemma fueled_raise {A} e : fueled (@raise A e).
Proof. intros h; discriminate. Qed.

Lemma fueled_bind {A B} (m : M A) (k : A -> M B) :
  fueled m -> (forall a, fueled (k a)) -> fueled (bind m k).
Proof.
  intros Hm Hk h. unfold bind. specialize (Hm h).
  destruct (m h) as [[a | e | ] h']; simpl in *;
    [apply Hk | discriminate | now destruct Hm].
Qed.

Lemma fueled_lift {A} (r : exn + A) : fueled (lift r).
Proof. destruct r; [apply fueled_raise | apply fueled_ret]. Qed.

Lemma fueled_resp_json resp : fueled (resp_json resp).
Proof.
  unfold resp_json. destruct (json resp); [apply fueled_ret | apply fueled_raise].
Qed.

Lemma fueled_get w url : fueled (get w url).
Proof. intros h. unfold get. now destruct (session_get w h url). Qed.

Lemma fueled_poll_body w rid url : fueled (poll_body w rid url).
Proof.
  unfold poll_body.
  apply fueled_bind; [apply fueled_get | intros r].
  apply fueled_bind; [apply fueled_resp_json | intros reports].
  apply fueled_bind; [apply fueled_lift | intros target].
  unfold inspect.
  destruct target as [target | ]; [ | apply fueled_ret].
  destruct (truthy target); [ | apply fueled_ret].
  apply fueled_bind; [apply fueled_lift | intros status].
  destruct (py_eq status (PStr "COMPLETED")); [ | apply fueled_ret].
  apply fueled_bind; [apply fueled_get | intros detail_resp].
  apply fueled_bind; [apply fueled_resp_json | intros val].
  apply fueled_bind; [apply fueled_lift | intros ready].
  destruct ready; apply fueled_ret.
Qed.

Lemma fueled_submit w payload : fueled (submit w payload).
Proof.
  unfold submit.
  apply fueled_bind.
  { intros h. unfold post. now destruct (session_post w h _ _). }
  intros resp. apply fueled_bind.
  { unfold assert_session_alive.
    destruct (unauthorized resp); [apply fueled_raise | ].
    destruct (login_page resp); [apply fueled_raise | apply fueled_ret]. }
  intros _. apply fueled_bind.
  - destruct (negb _); [ | apply fueled_ret].
    unfold first_listed.
    apply fueled_bind; [apply fueled_get | intros status_resp].
    apply fueled_bind; [apply fueled_resp_json | intros reports].
    destruct (truthy reports); [ | apply fueled_ret].
    apply fueled_bind; [apply fueled_lift | intros first; apply fueled_lift].
  - intros rid. destruct (negb _); [apply fueled_raise | apply fueled_ret].
Qed.

Lemma fueled_write_all chunks : fueled (write_all chunks).
Proof.
  induction chunks as [ | c rest IH]; simpl; [apply fueled_ret | ].
  apply fueled_bind; [intros h; discriminate | intros _; exact IH].
Qed.

Lemma fueled_retrieve w prefix url : fueled (retrieve w prefix url).
Proof.
  unfold retrieve.
  apply fueled_bind; [intros h; discriminate | intros stamp].
  apply fueled_bind.
  { intros h. unfold download. now destruct (requests_get w h url). }
  intros r. apply fueled_bind.
  { intros h. unfold open_. now destruct (open_wb w h _). }
  intros _. apply fueled_bind; [apply fueled_write_all | intros _].
  destruct (stream_error r); [apply fueled_raise | ].
  destruct (GDRIVE_FOLDER_ID w) as [folder | ]; [ | apply fueled_ret].
  destruct (negb _); [intros h; discriminate | apply fueled_ret].
Qed.

(** Past the deadline by the clock: what the test of the loop reads. *)
Lemma deadline_test now start :
  Qltb (now - start) MAX_WAIT_SECONDS = true <->
  (now - start < MAX_WAIT_SECONDS)%Q.
Proof.
  unfold Qltb. rewrite negb_true_iff. split.
  - intros E. apply Qnot_le_lt. intros L.
    apply Qle_bool_iff in L. congruence.
  - intros L. destruct (Qle_bool MAX_WAIT_SECONDS (now - start)) eqn:E;
      [ | reflexivity].
    apply Qle_bool_iff in E. exfalso. revert E. now apply Qlt_not_le.
Qed.

(** After [k] sleeps the loop has at most [MAX_TURNS - k] turns left. *)
Lemma turns_left now start k :
  (start + POLL_INTERVAL * inject_Z (Z.of_nat k) <= now)%Q ->
  Qltb (now - start) MAX_WAIT_SECONDS = true ->
  (k < MAX_TURNS)%nat.
Proof.
  intros L T. apply deadline_test in T.
  unfold POLL_INTERVAL, MAX_WAIT_SECONDS in *.
  assert (B : (inject_Z (Z.of_nat k) < inject_Z 300)%Q).
  { change (inject_Z 300) with 300%Q. lra. }
  rewrite <- Zlt_Qlt in B. unfold MAX_TURNS. lia.
Qed.

Lemma next_turn w start k h t :
  ticking w ->
  (start + POLL_INTERVAL * inject_Z (Z.of_nat k) <= time_time w h)%Q ->
  (start + POLL_INTERVAL * inject_Z (Z.of_nat (S k))
   <= time_time w ((h ++ t) ++ [TimeSleep POLL_INTERVAL]))%Q.
Proof.
  intros K L.
  pose proof (ticking_app w K t h) as A.
  pose proof (proj2 K (h ++ t)) as B.
  rewrite Nat2Z.inj_succ. unfold Z.succ. rewrite inject_Z_plus.
  change (inject_Z 1) with 1%Q.
  unfold POLL_INTERVAL in *. lra.
Qed.

Lemma poll_fueled w rid start :
  ticking w ->
  forall fuel k url h,
    (start + POLL_INTERVAL * inject_Z (Z.of_nat k) <= time_time w h)%Q ->
    (0 < fuel)%nat -> (MAX_TURNS < fuel + k)%nat ->
    fst (poll w fuel rid start url h) <> OutOfFuel.
Proof.
  intros K. induction fuel as [ | fuel IH]; intros k url h L F B; [lia | ].
  simpl. unfold bind at 1, time.
  destruct (Qltb (time_time w h - start) MAX_WAIT_SECONDS) eqn:T;
    [ | discriminate].
  pose proof (turns_left _ _ _ L T) as Kk.
  unfold bind at 1.
  pose proof (fueled_poll_body w rid url (h ++ [TimeTime])) as NB.
  destruct (emits_poll_body w rid url (h ++ [TimeTime])) as (t & Et & _).
  destruct (poll_body w rid url (h ++ [TimeTime])) as [[[u | u] | e | ] h2];
    simpl in *; try discriminate; [ | now destruct NB].
  subst h2. unfold bind, sleep.
  apply (IH (S k)); [ | unfold MAX_TURNS in *; lia | lia].
  rewrite <- (app_assoc h). now apply next_turn.
Qed.

Lemma bind_congr {A B} (m : M A) (k k' : A -> M B) h :
  (forall a h', m h = (Ok a, h') -> k a h' = k' a h') ->
  bind m k h = bind m k' h.
Proof.
  intros E. unfold bind. destruct (m h) as [[a | e | ] h'];
    [now apply E | reflexivity | reflexivity].
Qed.

(** Fuel that is not used up does not change the result. *)
Lemma poll_more_fuel w rid start n :
  forall fuel url h,
    fst (poll w fuel rid start url h) <> OutOfFuel ->
    poll w (fuel + n) rid start url h = poll w fuel rid start url h.
Proof.
  induction fuel as [ | fuel IH]; intros url h NF; [now destruct NF | ].
  cbn [poll Nat.add] in *.
  apply bind_congr. intros now h1 E1.
  rewrite (bind_ok _ _ _ _ _ E1) in NF.
  destruct (Qltb (now - start) MAX_WAIT_SECONDS); [ | reflexivity].
  apply bind_congr. intros [u | u] h2 E2; [reflexivity | ].
  rewrite (bind_ok _ _ _ _ _ E2) in NF.
  apply bind_congr. intros [] h3 E3.
  rewrite (bind_ok _ _ _ _ _ E3) in NF.
  now apply IH.
Qed.

Lemma poll_fueled_from_start w rid url h fuel :
  ticking w -> (MAX_TURNS < fuel)%nat ->
  fst (poll w fuel rid (time_time w h) url (h ++ [TimeTime])) <> OutOfFuel.
Proof.
  intros K F. apply (poll_fueled w rid _ K fuel 0%nat); [ | lia | lia].
  pose proof (proj1 K h TimeTime) as L.
  change (inject_Z (Z.of_nat 0)) with 0%Q. unfold POLL_INTERVAL. lra.
Qed.

(** X3.  With a clock that never runs backwards and that each sleep moves
    by [POLL_INTERVAL] at least, the script ends: more than [MAX_TURNS]
    turns of fuel are never used up, whatever the server answers, and the
    result of the run does not depend on the fuel given beyond that. *)
Theorem run_terminates
  (w : world) (prefix : string) (payload : pyval) (fuel : nat)
  (h : list call) :
  ticking w -> (MAX_TURNS < fuel)%nat ->
  fst (run w prefix payload fuel h) <> OutOfFuel
  /\ run w prefix payload fuel h = run w prefix payload (S MAX_TURNS) h.
Proof.
  intros K F. split.
  - unfold run. revert h. apply fueled_bind; [apply fueled_submit | ].
    intros rid h. unfold follow. unfold bind at 1, time.
    pose proof (poll_fueled_from_start w rid PNone h fuel K F) as P.
    unfold bind.
    destruct (poll w fuel rid (time_time w h) PNone (h ++ [TimeTime]))
      as [[u | e | ] h2]; simpl in *;
      [apply fueled_retrieve | discriminate | now destruct P].
  - unfold run. apply bind_congr. intros rid h1 _.
    unfold follow. apply bind_congr. intros start h2 E.
    unfold time in E. injection E as <- <-.
    assert (N : fst (poll w (S MAX_TURNS) rid (time_time w h1) PNone
                       (h1 ++ [TimeTime])) <> OutOfFuel)
      by (apply poll_fueled_from_start; [exact K | lia]).
    pose proof (poll_more_fuel w rid (time_time w h1) (fuel - S MAX_TURNS)
                  (S MAX_TURNS) PNone (h1 ++ [TimeTime]) N) as E.
    replace (S MAX_TURNS + (fuel - S MAX_TURNS))%nat with fuel in E by lia.
    unfold bind. now rewrite E.
Qed.

Lemma count_app p h t : count p (h ++ t) = (count p h + count p t)%nat.
Proof. unfold count. now rewrite filter_app, length_app. Qed.

(** The scripted clock ticks when a sleep moves it by two seconds or
    more. *)
Lemma scripted_ticking tick generation listing detail body :
  (2 <= tick)%Z -> ticking (scripted tick generation listing detail body).
Proof.
  intros T.
  assert (E : forall h,
             time_time (scripted tick generation listing detail body) h
             = inject_Z (1000 + tick * Z.of_nat (count is_sleep h)))
    by reflexivity.
  split.
  - intros h c. rewrite !E, <- Zle_Qle, count_app, Nat2Z.inj_add.
    pose proof (Nat2Z.is_nonneg (count is_sleep h)).
    pose proof (Nat2Z.is_nonneg (count is_sleep [c])). nia.
  - intros h. rewrite !E, count_app, Nat2Z.inj_add.
    change (count is_sleep [TimeSleep POLL_INTERVAL]) with 1%nat.
    unfold POLL_INTERVAL. change 2%Q with (inject_Z 2).
    rewrite <- inject_Z_plus, <- Zle_Qle.
    pose proof (Nat2Z.is_nonneg (count is_sleep h)). nia.
Qed.

Lemma run_terminates_witness :
  fst (run world_running "inventory_report_" inventory_payload 400 [])
  <> OutOfFuel
  /\ run world_running "inventory_report_" inventory_payload 400 []
     = run world_running "inventory_report_" inventory_payload
         (S MAX_TURNS) [].
Proof.
  apply (run_terminates world_running "inventory_report_" inventory_payload
           400 []).
  - apply scripted_ticking. lia.
  - unfold MAX_TURNS. lia.
Defined.

(** ** How often the loop polls *)

Lemma append_neq (s t : string) : t <> ""%string -> (s ++ t)%string <> s.
Proof.
  intros N. induction s as [ | c s IH]; simpl; [exact N | ].
  intros E. injection E as E. now apply IH.
Qed.

Lemma detail_is_not_listing x :
  is_listing_get (SessionGet (STATUS_URL ++ "/" ++ x)%string) = false.
Proof.
  unfold is_listing_get. apply String.eqb_neq.
  apply append_neq. discriminate.
Qed.

Lemma count_none (p : call -> bool) t :
  Forall (fun c => p c = false) t -> count p t = 0%nat.
Proof.
  unfold count. induction 1 as [ | c t E _ IH]; simpl; [reflexivity | ].
  now rewrite E.
Qed.

(** A turn makes one listing query and does not sleep before its end. *)
Lemma poll_body_trace w rid url h :
  exists t, snd (poll_body w rid url h) = h ++ t
            /\ (count is_listing_get t <= 1)%nat
            /\ count is_sleep t = 0%nat.
Proof.
  set (P := fun c : call =>
              c = SessionGet (STATUS_URL ++ "/" ++ py_str rid)%string).
  assert (Z0 : forall t, Forall P t ->
                 count is_listing_get t = 0%nat /\ count is_sleep t = 0%nat).
  { intros t F. split; apply count_none; eapply Forall_impl; try exact F;
      intros c ->; [apply detail_is_not_listing | reflexivity]. }
  unfold poll_body. unfold bind at 1, get.
  destruct (session_get w h STATUS_URL) as [name | r].
  - exists [SessionGet STATUS_URL]. simpl. auto.
  - match goal with
    | |- context [snd (?m (h ++ [SessionGet STATUS_URL]))] =>
        assert (E : emits P m)
    end.
    { apply emits_bind; [apply emits_resp_json | intros reports].
      apply emits_bind; [apply emits_lift | intros target].
      unfold inspect.
      destruct target as [target | ]; [ | apply emits_ret].
      destruct (truthy target); [ | apply emits_ret].
      apply emits_bind; [apply emits_lift | intros status].
      destruct (py_eq status (PStr "COMPLETED")); [ | apply emits_ret].
      apply emits_bind; [now apply emits_get | intros detail_resp].
      apply emits_bind; [apply emits_resp_json | intros val].
      apply emits_bind; [apply emits_lift | intros ready].
      destruct ready; apply emits_ret. }
    destruct (E (h ++ [SessionGet STATUS_URL])) as (t & Et & F).
    destruct (Z0 t F) as [L S].
    exists (SessionGet STATUS_URL :: t). rewrite Et, <- app_assoc.
    split; [reflexivity | ].
    change (SessionGet STATUS_URL :: t) with ([SessionGet STATUS_URL] ++ t).
    rewrite !count_app, L, S. simpl. auto.
Qed.

Lemma poll_queries_gen w rid start :
  ticking w ->
  forall fuel k url h,
    (start + POLL_INTERVAL * inject_Z (Z.of_nat k) <= time_time w h)%Q ->
    (k <= MAX_TURNS)%nat ->
    exists t, snd (poll w fuel rid start url h) = h ++ t
              /\ (count is_listing_get t + k <= MAX_TURNS)%nat
              /\ (count is_sleep t + k <= MAX_TURNS)%nat.
Proof.
  intros K. induction fuel as [ | fuel IH]; intros k url h L B.
  - exists []. simpl. rewrite app_nil_r. auto.
  - simpl. unfold bind at 1, time.
    destruct (Qltb (time_time w h - start) MAX_WAIT_SECONDS) eqn:T.
    + pose proof (turns_left _ _ _ L T) as Kk.
      destruct (poll_body_trace w rid url (h ++ [TimeTime]))
        as (tb & Eb & Lb & Sb).
      unfold bind at 1.
      destruct (poll_body w rid url (h ++ [TimeTime]))
        as [[[u | u] | e | ] h2]; simpl in Eb; subst h2;
        try (exists (TimeTime :: tb); rewrite <- app_assoc;
             split; [reflexivity | ];
             change (TimeTime :: tb) with ([TimeTime] ++ tb);
             rewrite !count_app, Sb; simpl; lia).
      unfold bind, sleep.
      destruct (IH (S k) u (((h ++ [TimeTime]) ++ tb)
                            ++ [TimeSleep POLL_INTERVAL]))
        as (t' & Et & Lt & St); [ | lia | ].
      { rewrite <- (app_assoc h). now apply next_turn. }
      exists (TimeTime :: tb ++ TimeSleep POLL_INTERVAL :: t').
      rewrite Et. split.
      * rewrite <- !app_assoc. reflexivity.
      * change (TimeTime :: tb ++ TimeSleep POLL_INTERVAL :: t')
          with ([TimeTime] ++ tb ++ [TimeSleep POLL_INTERVAL] ++ t').
        rewrite !count_app, Sb. simpl. lia.
    + exists [TimeTime]. simpl. split; [reflexivity | lia].
Qed.

(** X4.  With a ticking clock, a poll loop entered at or after its start
    time queries the status listing [MAX_TURNS] times at most and sleeps
    [MAX_TURNS] times at most, whatever the server answers. *)
Theorem poll_queries_bounded
  (w : world) (fuel : nat) (request_id download_url : pyval)
  (start_time : Q) (h : list call) :
  ticking w -> (start_time <= time_time w h)%Q ->
  exists t,
    snd (poll w fuel request_id start_time download_url h) = h ++ t
    /\ (count is_listing_get t <= MAX_TURNS)%nat
    /\ (count is_sleep t <= MAX_TURNS)%nat.
Proof.
  intros K L.
  destruct (poll_queries_gen w request_id start_time K fuel 0%nat
              download_url h) as (t & Et & Lt & St).
  - change (inject_Z (Z.of_nat 0)) with 0%Q. unfold POLL_INTERVAL. lra.
  - unfold MAX_TURNS. lia.
  - exists t. repeat split; [exact Et | lia | lia].
Qed.

Lemma poll_queries_bounded_witness :
  exists t,
    snd (poll world_running 400 (PInt 555) 1000 PNone [TimeTime])
    = [TimeTime] ++ t
    /\ (count is_listing_get t <= MAX_TURNS)%nat
    /\ (count is_sleep t <= MAX_TURNS)%nat.
Proof.
  apply (poll_queries_bounded world_running 400 (PInt 555) PNone 1000
           [TimeTime]).
  - apply scripted_ticking. lia.
  - vm_compute. discriminate.
Defined.

(** ** Turns that do not resolve *)

Lemma inspect_other_status w rid url m h :
  py_eq (dict_get m "status") (PStr "COMPLETED") = false ->
  inspect w rid url (Some (PDict m)) h = (Ok (Continue url), h).
Proof.
  intros N. unfold inspect.
  destruct (truthy (PDict m)); [ | reflexivity].
  unfold py_get, lift, bind, ret. now rewrite N.
Qed.

(** X5.  An entry whose status is anything but the string COMPLETED, be it
    FAILED, completed in lower case or no status at all, ends nothing: the
    turn makes no detail call, leaves [download_url] as it is, sleeps and
    polls again. *)
Theorem poll_waits_on_other_status
  (w : world) (fuel : nat) (request_id download_url : pyval)
  (start_time : Q) (h : list call) (r : response) (reports : pyval)
  (m : list (string * pyval)) :
  Qltb (time_time w h - start_time) MAX_WAIT_SECONDS = true ->
  session_get w (h ++ [TimeTime]) STATUS_URL = inr r ->
  json r = Some reports ->
  find_target reports request_id = inr (Some (PDict m)) ->
  py_eq (dict_get m "status") (PStr "COMPLETED") = false ->
  poll w (S fuel) request_id start_time download_url h
  = poll w fuel request_id start_time download_url
      (h ++ [TimeTime; SessionGet STATUS_URL; TimeSleep POLL_INTERVAL]).
Proof.
  intros T G J F N.
  rewrite (poll_enter w fuel _ _ _ _ T).
  unfold bind at 1.
  rewrite (poll_body_select w _ download_url _ _ _ _ G J F).
  rewrite (inspect_other_status w _ _ _ _ N).
  unfold bind, sleep. now rewrite <- !app_assoc.
Qed.

Lemma poll_waits_on_other_status_witness :
  poll (world_no_body 200 [entry 555 "FAILED"]) 2 (PInt 555) 1000 PNone []
  = poll (world_no_body 200 [entry 555 "FAILED"]) 1 (PInt 555) 1000 PNone
      ([] ++ [TimeTime; SessionGet STATUS_URL; TimeSleep POLL_INTERVAL]).
Proof.
  exact (poll_waits_on_other_status (world_no_body 200 [entry 555 "FAILED"]) 1
           (PInt 555) PNone 1000 []
           (reply 200 "[...]" (Some (PList [entry 555 "FAILED"])))
           (PList [entry 555 "FAILED"])
           [("requestId", PInt 555); ("status", PStr "FAILED")]
           eq_refl eq_refl eq_refl eq_refl eq_refl).
Defined.

(** X6.  When the entry is COMPLETED and the detail response does not
    normalize to a string, as with an object that has no ["status"] or one
    whose ["status"] is null or a number, [download_url.startswith] raises
    [AttributeError]: the run ends there, after the detail call, instead
    of polling on. *)
Theorem poll_raises_on_detail_without_url
  (w : world) (fuel : nat) (request_id download_url : pyval)
  (start_time : Q) (h : list call) (r detail_resp : response)
  (reports val : pyval) (m : list (string * pyval)) :
  Qltb (time_time w h - start_time) MAX_WAIT_SECONDS = true ->
  session_get w (h ++ [TimeTime]) STATUS_URL = inr r ->
  json r = Some reports ->
  find_target reports request_id = inr (Some (PDict m)) ->
  dict_get m "status" = PStr "COMPLETED" ->
  session_get w (h ++ [TimeTime; SessionGet STATUS_URL])
    (STATUS_URL ++ "/" ++ py_str request_id)%string = inr detail_resp ->
  json detail_resp = Some val ->
  (forall s, normalize val <> PStr s) ->
  poll w (S fuel) request_id start_time download_url h
  = (Raise AttributeError,
     h ++ [TimeTime; SessionGet STATUS_URL;
           SessionGet (STATUS_URL ++ "/" ++ py_str request_id)%string]).
Proof.
  intros T G J F C G' J' N.
  rewrite (poll_turn_completed w fuel _ _ download_url _ _ _ _ _ _
             T G J F C G' J').
  destruct (normalize val) as [ | b | z | s | l | d ]; try reflexivity.
  now destruct (N s).
Qed.

Lemma poll_raises_on_detail_without_url_witness :
  poll (world_detail (PDict [("state", PStr "done")])) 3 (PInt 555) 1000
    PNone []
  = (Raise AttributeError,
     [] ++ [TimeTime; SessionGet STATUS_URL;
            SessionGet (STATUS_URL ++ "/" ++ py_str (PInt 555))%string]).
Proof.
  refine (poll_raises_on_detail_without_url
            (world_detail (PDict [("state", PStr "done")])) 2
            (PInt 555) PNone 1000 []
            (reply 200 "[...]"
               (Some (PList [entry 7 "RUNNING"; entry 555 "COMPLETED"])))
            (reply 200 "..." (Some (PDict [("state", PStr "done")])))
            (PList [entry 7 "RUNNING"; entry 555 "COMPLETED"])
            (PDict [("state", PStr "done")])
            [("requestId", PInt 555); ("status", PStr "COMPLETED")]
            eq_refl eq_refl eq_refl eq_refl eq_refl eq_refl eq_refl _).
  intros s. discriminate.
Defined.

(** X7.  The poll loop does not retry a failed request: when the listing
    query of a turn raises in [requests], or its body is not JSON, the
    loop ends at once with that exception, without sleeping. *)
Theorem poll_aborts_on_failed_query
  (w : world) (fuel : nat) (request_id download_url : pyval)
  (start_time : Q) (h : list call) :
  Qltb (time_time w h - start_time) MAX_WAIT_SECONDS = true ->
  match session_get w (h ++ [TimeTime]) STATUS_URL with
  | inl name =>
      poll w (S fuel) request_id start_time download_url h
      = (Raise (RequestException name),
         h ++ [TimeTime; SessionGet STATUS_URL])
  | inr r =>
      json r = None ->
      poll w (S fuel) request_id start_time download_url h
      = (Raise JSONDecodeError, h ++ [TimeTime; SessionGet STATUS_URL])
  end.
Proof.
  intros T. rewrite (poll_enter w fuel _ _ _ _ T).
  destruct (session_get w (h ++ [TimeTime]) STATUS_URL) as [name | r] eqn:G.
  - apply bind_raise. unfold poll_body. apply bind_raise.
    unfold get. now rewrite G, <- app_assoc.
  - intros J. apply bind_raise. unfold poll_body.
    rewrite (bind_ok _ _ _ _ _ (get_ok _ _ _ _ G)).
    apply bind_raise. unfold resp_json. rewrite J.
    unfold raise. now rewrite <- app_assoc.
Qed.

Lemma poll_aborts_on_failed_query_witness :
  poll (scripted 2 (inl "unused") (fun _ => inl "ConnectionError")
          (inl "unused") (xlsx 200 []))
    1 (PInt 555) 1000 PNone []
  = (Raise (RequestException "ConnectionError"),
     [] ++ [TimeTime; SessionGet STATUS_URL]).
Proof.
  exact (poll_aborts_on_failed_query
           (scripted 2 (inl "unused") (fun _ => inl "ConnectionError")
              (inl "unused") (xlsx 200 []))
           0 (PInt 555) PNone 1000 [] eq_refl).
Defined.

Lemma first_match_not_dict rid pre x post :
  Forall (fun d => py_eq (dict_get d "requestId") rid = false) pre ->
  (forall m, x <> PDict m) ->
  first_match rid (map PDict pre ++ x :: post) = inl AttributeError.
Proof.
  intros N X. rewrite (first_match_skips rid pre _ N). simpl.
  destruct x as [ | b | z | s | l | m ]; try reflexivity.
  now destruct (X m).
Qed.

(** X8.  A listing entry that is not an object and stands before any
    matching entry makes the turn raise [AttributeError], even when the
    entry of the request follows it: the run ends after the listing
    query. *)
Theorem poll_raises_on_non_object_entry
  (w : world) (fuel : nat) (request_id download_url : pyval)
  (start_time : Q) (h : list call) (r : response)
  (pre : list (list (string * pyval))) (x : pyval) (post : list pyval) :
  Qltb (time_time w h - start_time) MAX_WAIT_SECONDS = true ->
  session_get w (h ++ [TimeTime]) STATUS_URL = inr r ->
  json r = Some (PList (map PDict pre ++ x :: post)) ->
  Forall (fun d => py_eq (dict_get d "requestId") request_id = false) pre ->
  (forall m, x <> PDict m) ->
  poll w (S fuel) request_id start_time download_url h
  = (Raise AttributeError, h ++ [TimeTime; SessionGet STATUS_URL]).
Proof.
  intros T G J N X.
  rewrite (poll_enter w fuel _ _ _ _ T).
  unfold bind at 1, poll_body.
  rewrite (bind_ok _ _ _ _ _ (get_ok _ _ _ _ G)).
  rewrite (bind_ok _ _ _ _ _ (resp_json_ok _ _ _ J)).
  unfold find_target, py_iter.
  rewrite (first_match_not_dict request_id pre x post N X).
  unfold bind, lift, raise. now rewrite <- app_assoc.
Qed.

Lemma poll_raises_on_non_object_entry_witness :
  poll (world_no_body 200 [PNone; entry 555 "COMPLETED"]) 1 (PInt 555) 1000
    PNone []
  = (Raise AttributeError, [] ++ [TimeTime; SessionGet STATUS_URL]).
Proof.
  refine (poll_raises_on_non_object_entry
            (world_no_body 200 [PNone; entry 555 "COMPLETED"]) 0
            (PInt 555) PNone 1000 []
            (reply 200 "[...]" (Some (PList [PNone; entry 555 "COMPLETED"])))
            [] PNone [entry 555 "COMPLETED"]
            eq_refl eq_refl eq_refl _ _).
  - constructor.
  - intros m. discriminate.
Defined.

(** ** The fallback on the listing *)

(** X9.  When the listing query of the fallback answers with JSON, the
    fallback yields a value in two cases only: the listing is empty (or
    null, zero, false), and the value is the id it was given; or the
    listing is an array whose first entry is an object, and the value is
    the ["requestId"] of that entry, [None] if it has none.  On any other
    listing, an object, a string, a number or an array that begins with
    something else, [reports[0].get] raises. *)
Theorem fallback_succeeds_iff
  (w : world) (request_id : pyval) (h : list call) (r : response)
  (reports v : pyval) :
  session_get w h STATUS_URL = inr r ->
  json r = Some reports ->
  (fst (first_listed w request_id h) = Ok v
   <-> (truthy reports = false /\ v = request_id)
       \/ (exists m rest, reports = PList (PDict m :: rest)
                          /\ v = dict_get m "requestId")).
Proof.
  intros G J. unfold first_listed.
  rewrite (bind_ok _ _ _ _ _ (get_ok _ _ _ _ G)).
  rewrite (bind_ok _ _ _ _ _ (resp_json_ok _ _ _ J)).
  split.
  - destruct reports as [ | [ | ] | z | [ | c s] | [ | x l] | [ | kv m]];
      simpl; try destruct (z =? 0)%Z eqn:Z0; simpl;
      try discriminate;
      try (intros E; injection E as <-; now left).
    destruct x as [ | b | z | s | l' | m ]; simpl; try discriminate.
    intros E. injection E as <-. right. now exists m, l.
  - intros [[T ->] | (m & rest & -> & ->)].
    + now rewrite T.
    + reflexivity.
Qed.

Lemma fallback_succeeds_iff_witness :
  fst (first_listed (world_no_body 200 [entry 42 "PENDING"]) PNone []) = Ok (PInt 42)
  <-> (truthy (PList [entry 42 "PENDING"]) = false /\ PInt 42 = PNone)
      \/ (exists m rest, PList [entry 42 "PENDING"] = PList (PDict m :: rest)
                         /\ PInt 42 = dict_get m "requestId").
Proof.
  exact (fallback_succeeds_iff (world_no_body 200 [entry 42 "PENDING"]) PNone
           [] (reply 200 "[...]" (Some (PList [entry 42 "PENDING"])))
           (PList [entry 42 "PENDING"]) (PInt 42) eq_refl eq_refl).
Defined.

(** ** The calls of a whole run *)

Lemma emits_post (P : call -> Prop) w url body :
  P (SessionPost url body) -> emits P (post w url body).
Proof.
  intros Pc h. exists [SessionPost url body]. unfold post.
  split; [now destruct (session_post w h url body) | now repeat constructor].
Qed.

Lemma emits_assert_session_alive P resp : emits P (assert_session_alive resp).
Proof.
  unfold assert_session_alive.
  destruct (unauthorized resp); [apply emits_raise | ].
  destruct (login_page resp); [apply emits_raise | apply emits_ret].
Qed.

Lemma emits_resolve (P : call -> Prop) w resp :
  P (SessionGet STATUS_URL) -> emits P (resolve w resp).
Proof.
  intros Pg. unfold resolve. apply emits_bind.
  - destruct (negb _); [ | apply emits_ret].
    unfold first_listed.
    apply emits_bind; [now apply emits_get | intros status_resp].
    apply emits_bind; [apply emits_resp_json | intros reports].
    destruct (truthy reports); [ | apply emits_ret].
    apply emits_bind; [apply emits_lift | intros first; apply emits_lift].
  - intros rid. destruct (negb _); [apply emits_raise | apply emits_ret].
Qed.

Lemma emits_poll (P : call -> Prop) w fuel rid start url :
  (forall c, poll_call_ok rid c -> P c) ->
  emits P (poll w fuel rid start url).
Proof.
  intros PQ. revert url. induction fuel as [ | fuel IH]; intros url; simpl.
  - intros h. exists []. split; [now rewrite app_nil_r | constructor].
  - apply emits_bind; [now apply emits_time, PQ | intros now].
    destruct (Qltb (now - start) MAX_WAIT_SECONDS); [ | apply emits_ret].
    apply emits_bind.
    { eapply emits_weaken; [exact PQ | apply emits_poll_body]. }
    intros [u | u]; [apply emits_ret | ].
    apply emits_bind; [now apply emits_sleep, PQ | intros _; apply IH].
Qed.

Lemma emits_retrieve_gen (P : call -> Prop) w prefix url :
  P DatetimeNow -> P (RequestsGet url) ->
  (forall path, P (OpenWb path)) -> (forall c, P (FileWrite c)) ->
  (forall path folder, P (UploadToDrive path folder)) ->
  emits P (retrieve w prefix url).
Proof.
  intros Pn Pg Po Pw Pu. unfold retrieve.
  apply emits_bind.
  { intros h. exists [DatetimeNow]. split; [reflexivity | now repeat constructor]. }
  intros stamp. apply emits_bind.
  { intros h. exists [RequestsGet url]. unfold download.
    split; [now destruct (requests_get w h url) | now repeat constructor]. }
  intros r. apply emits_bind.
  { intros h. eexists [OpenWb _]. unfold open_.
    split; [now destruct (open_wb w h _) | now repeat constructor]. }
  intros _. apply emits_bind; [now apply emits_write_all | intros _].
  destruct (stream_error r); [apply emits_raise | ].
  destruct (GDRIVE_FOLDER_ID w) as [folder | ]; [ | apply emits_ret].
  destruct (negb _); [ | apply emits_ret].
  intros h. eexists [UploadToDrive _ _].
  split; [reflexivity | now repeat constructor].
Qed.

Lemma run_after_post w prefix payload fuel h resp :
  session_post w h GENERATE_URL payload = inr resp ->
  run w prefix payload fuel h
  = bind (bind (assert_session_alive resp) (fun _ => resolve w resp))
      (follow w prefix fuel) (h ++ [SessionPost GENERATE_URL payload]).
Proof.
  intros G. unfold run, submit. unfold bind at 1.
  now rewrite (bind_ok _ _ _ _ _ (post_ok _ _ _ _ _ G)).
Qed.

Lemma run_post_fails w prefix payload fuel h name :
  session_post w h GENERATE_URL payload = inl name ->
  run w prefix payload fuel h
  = (Raise (RequestException name), h ++ [SessionPost GENERATE_URL payload]).
Proof.
  intros G. unfold run, submit. apply bind_raise, bind_raise.
  unfold post. now rewrite G.
Qed.

(** What the run calls after the POST has been answered. *)
Lemma emits_after_post (P : call -> Prop) w prefix fuel resp :
  P TimeTime -> P DatetimeNow ->
  (forall url, P (SessionGet url)) -> (forall secs, P (TimeSleep secs)) ->
  (forall url, P (RequestsGet url)) ->
  (forall path, P (OpenWb path)) -> (forall c, P (FileWrite c)) ->
  (forall path folder, P (UploadToDrive path folder)) ->
  emits P (bind (bind (assert_session_alive resp) (fun _ => resolve w resp))
             (follow w prefix fuel)).
Proof.
  intros Pt Pn Pg Ps Pr Po Pw Pu. apply emits_bind.
  - apply emits_bind; [apply emits_assert_session_alive | intros _].
    now apply emits_resolve.
  - intros rid. unfold follow.
    apply emits_bind; [now apply emits_time | intros start].
    apply emits_bind.
    + apply emits_poll.
      intros [ | | | | | | | | ]; simpl; intros; (contradiction || auto).
    + intros url. now apply emits_retrieve_gen.
Qed.

(** X10.  A run posts the report request once: the POST to [GENERATE_URL]
    is its first call and no later call is a POST, whatever happens
    afterwards; a request is never submitted again. *)
Theorem run_posts_once
  (w : world) (prefix : string) (payload : pyval) (fuel : nat)
  (h : list call) :
  exists t,
    snd (run w prefix payload fuel h)
    = h ++ SessionPost GENERATE_URL payload :: t
    /\ Forall (fun c => is_post c = false) t.
Proof.
  destruct (session_post w h GENERATE_URL payload) as [name | resp] eqn:G.
  - rewrite (run_post_fails w prefix payload fuel h name G).
    exists []. split; [reflexivity | constructor].
  - rewrite (run_after_post w prefix payload fuel h resp G).
    destruct (emits_after_post (fun c => is_post c = false) w prefix fuel resp)
      with (h := h ++ [SessionPost GENERATE_URL payload]) as (t & Et & F);
      try reflexivity.
    exists t. split; [ | exact F].
    rewrite Et. now rewrite <- app_assoc.
Qed.

(** ** The upload *)

Lemma uploads_last_bind w {A} (m : M A) (k : A -> M unit) :
  emits (fun c => is_upload c = false) m ->
  (forall a, uploads_last w (k a)) ->
  uploads_last w (bind m k).
Proof.
  intros Hm Hk h. destruct (Hm h) as (t0 & E0 & F0). unfold bind.
  destruct (m h) as [[a | e | ] h1]; simpl in E0; subst h1.
  - destruct (Hk a (h ++ t0)) as (t & u & E & F & U).
    exists (t0 ++ t), u. split; [ | split].
    + rewrite E. now rewrite <- !app_assoc.
    + now apply Forall_app.
    + destruct U as [-> | (fp & folder & -> & G & N & I & R)]; [now left | ].
      right. exists fp, folder. repeat split; auto.
      apply in_or_app. now right.
  - exists t0, []. rewrite app_nil_r. auto.
  - exists t0, []. rewrite app_nil_r. auto.
Qed.

Lemma uploads_last_retrieve w prefix url : uploads_last w (retrieve w prefix url).
Proof.
  intros h. unfold retrieve.
  rewrite (bind_ok _ _ h _ _ (eq_refl (now_ w h))).
  set (file_path := file_path_at prefix (datetime_now w h)).
  destruct (requests_get w (h ++ [DatetimeNow]) url) as [name | r] eqn:D.
  - exists [DatetimeNow; RequestsGet url], [].
    rewrite app_nil_r. split; [ | split; [now repeat constructor | now left]].
    erewrite bind_raise; [reflexivity | ].
    unfold download. now rewrite D, <- app_assoc.
  - assert (E : download w url (h ++ [DatetimeNow])
                = (Ok r, h ++ [DatetimeNow; RequestsGet url]))
      by (unfold download; now rewrite D, <- app_assoc).
    rewrite (bind_ok _ _ _ _ _ E).
    destruct (open_wb w (h ++ [DatetimeNow; RequestsGet url]) file_path)
      as [name | ] eqn:O.
    + exists [DatetimeNow; RequestsGet url; OpenWb file_path], [].
      rewrite app_nil_r.
      split; [ | split; [now repeat constructor | now left]].
      erewrite bind_raise; [reflexivity | ].
      unfold open_. now rewrite O, <- app_assoc.
    + assert (E' : open_ w file_path (h ++ [DatetimeNow; RequestsGet url])
                   = (Ok tt, h ++ [DatetimeNow; RequestsGet url;
                                   OpenWb file_path]))
        by (unfold open_; now rewrite O, <- app_assoc).
      rewrite (bind_ok _ _ _ _ _ E').
      rewrite (bind_ok _ _ _ _ _ (write_all_run _ _)).
      set (t := [DatetimeNow; RequestsGet url; OpenWb file_path]
                ++ map FileWrite (iter_content r)).
      assert (Ft : Forall (fun c => is_upload c = false) t).
      { apply Forall_app. split; [now repeat constructor | ].
        apply Forall_forall. intros c I. apply in_map_iff in I.
        now destruct I as (x & <- & _). }
      assert (Ht : (h ++ [DatetimeNow; RequestsGet url; OpenWb file_path])
                   ++ map FileWrite (iter_content r) = h ++ t)
        by (unfold t; now rewrite <- app_assoc).
      rewrite Ht.
      destruct (stream_error r) as [name | ].
      { exists t, []. rewrite app_nil_r. auto. }
      destruct (GDRIVE_FOLDER_ID w) as [folder | ] eqn:G;
        [ | exists t, []; rewrite app_nil_r; auto].
      destruct (folder =? "")%string eqn:N; simpl.
      { exists t, []. rewrite app_nil_r. auto. }
      exists t, [UploadToDrive (abspath w file_path) folder].
      split; [unfold upload_to_drive; now rewrite <- app_assoc | ].
      split; [exact Ft | ]. right. exists file_path, folder.
      repeat split; auto.
      * now apply String.eqb_neq.
      * unfold t. simpl. auto.
Qed.

(** X11.  A run uploads at most once, and then as its very last call: the
    upload happens only when the whole run has gone well, a non-empty
    [GDRIVE_FOLDER_ID] is set, and the file uploaded is the absolute path
    of the file the run has opened and written.  A failed download uploads
    nothing. *)
Theorem run_uploads_last
  (w : world) (prefix : string) (payload : pyval) (fuel : nat)
  (h : list call) :
  exists t u,
    snd (run w prefix payload fuel h) = h ++ t ++ u
    /\ Forall (fun c => is_upload c = false) t
    /\ (u = []
        \/ exists file_path folder,
             u = [UploadToDrive (abspath w file_path) folder]
             /\ GDRIVE_FOLDER_ID w = Some folder /\ folder <> ""%string
             /\ In (OpenWb file_path) t
             /\ fst (run w prefix payload fuel h) = Ok tt).
Proof.
  revert h. change (uploads_last w (run w prefix payload fuel)).
  unfold run. apply uploads_last_bind.
  - unfold submit.
    apply emits_bind; [now apply emits_post | intros resp].
    apply emits_bind; [apply emits_assert_session_alive | intros _].
    now apply (emits_resolve _ w resp).
  - intros rid. unfold follow.
    apply uploads_last_bind; [now apply emits_time | intros start].
    apply uploads_last_bind; [ | intros url; apply uploads_last_retrieve].
    apply emits_poll.
    intros [ | | | | | | | | ]; simpl; intros; (contradiction || auto).
Qed.

(** ** The name of the report file *)

Lemma to_int_not_nil z :
  Z.to_int z <> Decimal.Pos Decimal.Nil /\ Z.to_int z <> Decimal.Neg Decimal.Nil.
Proof.
  destruct z as [ | p | p]; simpl; split; try discriminate;
    intros E; injection E as E; now apply (Unsigned.to_uint_nonnil p).
Qed.

Lemma str_of_Z_inj a b : str_of_Z a = str_of_Z b -> a = b.
Proof.
  unfold str_of_Z. intros E. apply DecimalZ.to_int_inj.
  destruct (to_int_not_nil a) as [A1 A2].
  destruct (to_int_not_nil b) as [B1 B2].
  pose proof (NilZero.isi _ A1 A2) as Ia.
  pose proof (NilZero.isi _ B1 B2) as Ib.
  rewrite E in Ia. rewrite Ia in Ib. now injection Ib.
Qed.

(** A property checked on every integer of [lo, lo + n). *)
Lemma checked_range (P : Z -> bool) lo n :
  forallb (fun k => P (lo + Z.of_nat k)) (seq 0 n) = true ->
  forall z, lo <= z < lo + Z.of_nat n -> P z = true.
Proof.
  intros C z R. rewrite forallb_forall in C.
  specialize (C (Z.to_nat (z - lo))).
  replace (lo + Z.of_nat (Z.to_nat (z - lo))) with z in C by lia.
  apply C. apply in_seq. lia.
Qed.

Lemma pad2_length z : 0 <= z <= 99 -> String.length (pad2 z) = 2%nat.
Proof.
  intros R.
  apply Nat.eqb_eq.
  apply (checked_range (fun z => (String.length (pad2 z) =? 2)%nat) 0 100);
    [vm_compute; reflexivity | lia].
Qed.

Lemma year_length y : 1000 <= y <= 9999 -> String.length (str_of_Z y) = 4%nat.
Proof.
  intros R.
  apply Nat.eqb_eq.
  apply (checked_range (fun z => (String.length (str_of_Z z) =? 4)%nat)
           1000 (Z.to_nat 9000));
    [vm_compute; reflexivity | lia].
Qed.

Lemma prefix_head c x : String.prefix (String c "") (String c x) = true.
Proof.
  apply String.prefix_correct. simpl. now destruct x.
Qed.

Lemma pad2_inj a b : 0 <= a <= 99 -> 0 <= b <= 99 -> pad2 a = pad2 b -> a = b.
Proof.
  intros Ra Rb E.
  assert (L : forall z, 10 <= z <= 99 ->
                String.prefix "0" (str_of_Z z) = false).
  { intros z R. apply negb_true_iff.
    apply (checked_range (fun z => negb (String.prefix "0" (str_of_Z z)))
             10 90);
      [vm_compute; reflexivity | lia]. }
  unfold pad2 in *.
  destruct (a <? 10) eqn:A; destruct (b <? 10) eqn:B.
  - simpl in E. apply str_of_Z_inj. congruence.
  - apply Z.ltb_ge in B. specialize (L b ltac:(lia)).
    rewrite <- E in L. simpl append in L. rewrite prefix_head in L.
    discriminate L.
  - apply Z.ltb_ge in A. specialize (L a ltac:(lia)).
    rewrite E in L. simpl append in L. rewrite prefix_head in L.
    discriminate L.
  - now apply str_of_Z_inj.
Qed.

Lemma append_split (a a' b b' : string) :
  String.length a = String.length a' ->
  (a ++ b)%string = (a' ++ b')%string -> a = a' /\ b = b'.
Proof.
  revert a'. induction a as [ | c a IH]; intros [ | c' a'] L E;
    try discriminate.
  - now split.
  - simpl in *. injection E as -> E. injection L as L.
    destruct (IH a' L E) as [-> ->]. now split.
Qed.

Lemma strftime_stamp_inj d1 d2 :
  valid_datetime d1 -> valid_datetime d2 ->
  strftime_stamp d1 = strftime_stamp d2 -> d1 = d2.
Proof.
  intros (Y1 & M1 & D1 & H1 & I1 & S1) (Y2 & M2 & D2 & H2 & I2 & S2).
  assert (B1 : day d1 <= 31)
    by (unfold days_in_month in D1;
        repeat match type of D1 with
               | context [if ?c then _ else _] => destruct c
               end; lia).
  assert (B2 : day d2 <= 31)
    by (unfold days_in_month in D2;
        repeat match type of D2 with
               | context [if ?c then _ else _] => destruct c
               end; lia).
  unfold strftime_stamp. intros E.
  apply append_split in E; [ | now rewrite !year_length].
  destruct E as [Ey E]. apply str_of_Z_inj in Ey.
  apply append_split in E; [ | rewrite !pad2_length; auto; lia].
  destruct E as [Em E]. apply pad2_inj in Em; [ | lia | lia].
  apply append_split in E; [ | rewrite !pad2_length; auto; lia].
  destruct E as [Ed E]. apply pad2_inj in Ed; [ | lia | lia].
  apply append_split in E; [ | reflexivity].
  destruct E as [_ E].
  apply append_split in E; [ | rewrite !pad2_length; auto; lia].
  destruct E as [Eh E]. apply pad2_inj in Eh; [ | lia | lia].
  apply append_split in E; [ | rewrite !pad2_length; auto; lia].
  destruct E as [Ei Es]. apply pad2_inj in Ei; [ | lia | lia].
  apply pad2_inj in Es; [ | lia | lia].
  destruct d1, d2; simpl in *. congruence.
Qed.

Lemma append_cancel_l (p a b : string) :
  (p ++ a)%string = (p ++ b)%string -> a = b.
Proof.
  induction p as [ | c p IH]; simpl; intros E; [exact E | ].
  injection E as E. now apply IH.
Qed.

Lemma stamp_length d :
  valid_datetime d -> String.length (strftime_stamp d) = 15%nat.
Proof.
  intros (Y & M & D & H & I & S).
  assert (B : day d <= 31)
    by (unfold days_in_month in D;
        repeat match type of D with
               | context [if ?c then _ else _] => destruct c
               end; lia).
  assert (LA : forall a b, String.length (a ++ b)
                           = (String.length a + String.length b)%nat).
  { induction a as [ | c a IH]; intros b; simpl; [reflexivity | now rewrite IH]. }
  unfold strftime_stamp.
  rewrite !LA, year_length, !pad2_length by lia. reflexivity.
Qed.

(** X12.  Runs that read different clock values, to the second, write to
    different files: for clock readings with a year of four digits, the
    path of the report file determines the reading.  Two runs of the same
    script overwrite each other's file only within the same second. *)
Theorem file_path_determines_stamp
  (prefix : string) (d1 d2 : datetime) :
  valid_datetime d1 -> valid_datetime d2 ->
  file_path_at prefix d1 = file_path_at prefix d2 -> d1 = d2.
Proof.
  intros V1 V2 E. unfold file_path_at in E.
  apply append_cancel_l in E. apply append_cancel_l in E.
  apply append_cancel_l in E.
  apply append_split in E; [ | now rewrite !stamp_length].
  now apply strftime_stamp_inj.
Qed.

Lemma file_path_determines_stamp_witness :
  {| year := 2026; month := 3; day := 1;
     hour := 9; minute := 5; second := 30 |}
  = {| year := 2026; month := 3; day := 1;
       hour := 9; minute := 5; second := 30 |}.
Proof.
  apply (file_path_determines_stamp "inventory_report_");
    [unfold valid_datetime; repeat split; vm_compute; discriminate
    | unfold valid_datetime; repeat split; vm_compute; discriminate
    | reflexivity].
Defined.

(** X13.  The inventory script and the returns script never write to the
    same path, whatever the clocks read. *)
Theorem report_files_are_disjoint (d1 d2 : datetime) :
  file_path_at "inventory_report_" d1 <> file_path_at "return_report_" d2.
Proof.
  unfold file_path_at. intros E.
  apply append_cancel_l in E. apply append_cancel_l in E.
  simpl in E. discriminate E.
Qed.

(** ** The session check *)

Lemma prefix_spec p s :
  String.prefix p s = true <-> exists b, s = (p ++ b)%string.
Proof.
  revert s. induction p as [ | c p IH]; intros s.
  - split; [intros _; now exists s | intros _; now destruct s].
  - destruct s as [ | d s]; simpl.
    + split; [discriminate | intros (b & E); discriminate].
    + destruct (ascii_dec c d) as [-> | N].
      * rewrite IH. split; intros (b & E); exists b; congruence.
      * split; [discriminate | intros (b & E); congruence].
Qed.

(** [p in s] holds exactly when [s] is [a ++ p ++ b]. *)
Lemma str_in_spec p s :
  str_in p s = true <-> exists a b, s = (a ++ p ++ b)%string.
Proof.
  induction s as [ | c s IH]; cbn [str_in]; rewrite orb_true_iff.
  - split.
    + intros [P | F]; [ | discriminate].
      apply prefix_spec in P. destruct P as (b & E). now exists ""%string, b.
    + intros ([ | d a] & b & E); [ | discriminate].
      left. apply prefix_spec. now exists b.
  - rewrite IH, prefix_spec. split.
    + intros [(b & E) | (a & b & E)].
      * now exists ""%string, b.
      * exists (String c a), b. simpl. now rewrite E.
    + intros ([ | d a] & b & E).
      * left. now exists b.
      * right. simpl in E. injection E as _ E. now exists a, b.
Qed.

(** X15.  The session check fails with "Redirected to login page" exactly
    when the status is neither 401 nor 403 and the body, put in lower
    case, has "login" somewhere in it: any mention of the word, in any
    case of letters, counts, also in a response of status 200 that
    carries an identifier. *)
Theorem login_check_is_substring_test (resp : response) (h : list call) :
  assert_session_alive resp h = (Raise (RuntimeError redirected_to_login), h)
  <-> (status_code resp <> 401 /\ status_code resp <> 403
       /\ exists a b, lower (text resp) = (a ++ "login" ++ b)%string).
Proof.
  unfold assert_session_alive, unauthorized, login_page.
  rewrite <- str_in_spec.
  destruct (status_code resp =? 401) eqn:A; simpl.
  - apply Z.eqb_eq in A. split; [discriminate | tauto].
  - apply Z.eqb_neq in A.
    destruct (status_code resp =? 403) eqn:B; simpl.
    + apply Z.eqb_eq in B. split; [discriminate | tauto].
    + apply Z.eqb_neq in B.
      destruct (str_in "login" (lower (text resp))); unfold raise, ret.
      * tauto.
      * split; [discriminate | intros (_ & _ & F); discriminate].
Qed.

(** * The Google Drive helpers *)

Ltac drive_unfold :=
  unfold upload_to_drive_steps, try_except, get_drive_service, log_in,
    save_token, exists_, ask, tell, dbind, dret, dfail in *.

(** X16.  With a stored token that is valid, [get_drive_service] only
    checks for the token file, loads it and builds the service: it does
    not refresh, does not look for the client secrets file, opens no
    browser and does not rewrite the token file. *)
Theorem drive_service_reuses_valid_token
  (dw : drive_world) (advice : string) (h : list drive_call)
  (c : credentials) :
  path_exists dw h TOKEN_FILE = true ->
  from_authorized_user_file dw (h ++ [PathExists (Some TOKEN_FILE)]) = inr c ->
  valid c = true ->
  get_drive_service dw advice h
  = (match build dw (h ++ [PathExists (Some TOKEN_FILE);
                           FromAuthorizedUserFile TOKEN_FILE]) c with
     | Some name => Failed (DriveError name)
     | None => Done c
     end,
     h ++ [PathExists (Some TOKEN_FILE); FromAuthorizedUserFile TOKEN_FILE;
           Build c]).
Proof.
  intros E L V. drive_unfold. rewrite E, L, V.
  rewrite <- !app_assoc. simpl app.
  now destruct (build dw _ c).
Qed.

Lemma drive_service_reuses_valid_token_witness :
  get_drive_service
    (drive_scripted (Some (token true false None "{stored}"))
       (token true false None "{fresh}") None false true) "" []
  = (Done (token true false None "{stored}"),
     [] ++ [PathExists (Some TOKEN_FILE); FromAuthorizedUserFile TOKEN_FILE;
            Build (token true false None "{stored}")]).
Proof.
  exact (drive_service_reuses_valid_token
           (drive_scripted (Some (token true false None "{stored}"))
              (token true false None "{fresh}") None false true) "" []
           (token true false None "{stored}") eq_refl eq_refl eq_refl).
Defined.

(** X17.  A stored token that is not valid but expired, with a refresh
    token, is refreshed in place: the client secrets file is not looked
    for (it may be unset), no browser is opened, and the token file is
    rewritten with the JSON of the refreshed credentials, with which the
    service is then built. *)
Theorem drive_service_refreshes_expired_token
  (dw : drive_world) (advice : string) (h : list drive_call)
  (c c' : credentials) :
  path_exists dw h TOKEN_FILE = true ->
  from_authorized_user_file dw (h ++ [PathExists (Some TOKEN_FILE)]) = inr c ->
  valid c = false -> expired c = true ->
  truthy_str (refresh_token c) = true ->
  refresh dw (h ++ [PathExists (Some TOKEN_FILE);
                    FromAuthorizedUserFile TOKEN_FILE]) c = inr c' ->
  open_token dw (h ++ [PathExists (Some TOKEN_FILE);
                       FromAuthorizedUserFile TOKEN_FILE; Refresh]) = None ->
  get_drive_service dw advice h
  = (match build dw (h ++ [PathExists (Some TOKEN_FILE);
                           FromAuthorizedUserFile TOKEN_FILE; Refresh;
                           OpenToken TOKEN_FILE; TokenWrite (to_json c')]) c'
     with
     | Some name => Failed (DriveError name)
     | None => Done c'
     end,
     h ++ [PathExists (Some TOKEN_FILE); FromAuthorizedUserFile TOKEN_FILE;
           Refresh; OpenToken TOKEN_FILE; TokenWrite (to_json c'); Build c']).
Proof.
  intros E L V X T R O. drive_unfold. rewrite E, L, V, X, T.
  cbv beta iota delta [andb]. rewrite <- !app_assoc. simpl app. rewrite R.
  rewrite <- !app_assoc. simpl app. rewrite O.
  rewrite <- !app_assoc. simpl app.
  now destruct (build dw _ c').
Qed.

Lemma drive_service_refreshes_expired_token_witness :
  get_drive_service
    (drive_scripted (Some (token false true (Some "1//r") "{stored}"))
       (token true false (Some "1//r") "{fresh}") None false true) "" []
  = (Done (token true false (Some "1//r") "{fresh}"),
     [] ++ [PathExists (Some TOKEN_FILE); FromAuthorizedUserFile TOKEN_FILE;
            Refresh; OpenToken TOKEN_FILE; TokenWrite "{fresh}";
            Build (token true false (Some "1//r") "{fresh}")]).
Proof.
  exact (drive_service_refreshes_expired_token
           (drive_scripted (Some (token false true (Some "1//r") "{stored}"))
              (token true false (Some "1//r") "{fresh}") None false true)
           "" [] (token false true (Some "1//r") "{stored}")
           (token true false (Some "1//r") "{fresh}")
           eq_refl eq_refl eq_refl eq_refl eq_refl eq_refl eq_refl).
Defined.

Lemma dbind_done_inv {A B} (m : D A) (k : A -> D B) h b h' :
  dbind m k h = (Done b, h') ->
  exists a h1, m h = (Done a, h1) /\ k a h1 = (Done b, h').
Proof.
  unfold dbind. destruct (m h) as [[a | e] h1]; intros E;
    [now exists a, h1 | discriminate].
Qed.

Lemma dbind_failed_inv {A B} (m : D A) (k : A -> D B) h e h' :
  dbind m k h = (Failed e, h') ->
  m h = (Failed e, h')
  \/ exists a h1, m h = (Done a, h1) /\ k a h1 = (Failed e, h').
Proof.
  unfold dbind. destruct (m h) as [[a | e0] h1]; intros E.
  - right. now exists a, h1.
  - left. now injection E as -> ->.
Qed.

Lemma ask_inv {A} c (answer : list drive_call -> string + A) h o h' :
  ask c answer h = (o, h') ->
  h' = h ++ [c]
  /\ match o with
     | Done a => answer h = inr a
     | Failed e => exists name, e = DriveError name /\ answer h = inl name
     end.
Proof.
  unfold ask. destruct (answer h) as [name | a]; intros E;
    injection E as <- <-; split; eauto.
Qed.

Lemma tell_inv c (answer : list drive_call -> option string) h o h' :
  tell c answer h = (o, h') ->
  h' = h ++ [c]
  /\ match o with
     | Done _ => answer h = None
     | Failed e => exists name, e = DriveError name /\ answer h = Some name
     end.
Proof.
  unfold tell. destruct (answer h) as [name | ]; intros E;
    injection E as <- <-; split; eauto.
Qed.

Lemma save_token_done_inv dw c h u h' :
  save_token dw c h = (Done u, h') ->
  h' = h ++ [OpenToken TOKEN_FILE; TokenWrite (to_json c)].
Proof.
  unfold save_token. intros E.
  apply dbind_done_inv in E. destruct E as ([] & h1 & E1 & E).
  apply tell_inv in E1. destruct E1 as [-> _].
  destruct u. injection E as <-. now rewrite <- app_assoc.
Qed.

(** The log-in succeeds only through the browser, with the client secrets
    file in place. *)
Lemma log_in_done_inv dw advice h c h' :
  log_in dw advice h = (Done c, h') ->
  exists secrets,
    CLIENT_SECRETS_FILE dw = Some secrets
    /\ path_exists dw h secrets = true
    /\ h' = h ++ [PathExists (Some secrets); FromClientSecretsFile secrets;
                  RunLocalServer].
Proof.
  unfold log_in. intros E.
  apply dbind_done_inv in E. destruct E as (found & h1 & E1 & E).
  unfold exists_ in E1.
  destruct (CLIENT_SECRETS_FILE dw) as [secrets | ]; [ | discriminate].
  injection E1 as <- <-.
  destruct (path_exists dw h secrets) eqn:P; simpl in E; [ | discriminate].
  apply dbind_done_inv in E. destruct E as ([] & h2 & E2 & E).
  apply tell_inv in E2. destruct E2 as [-> _].
  apply ask_inv in E. destruct E as [-> _].
  exists secrets.
  split; [reflexivity | split; [exact P | now rewrite <- !app_assoc]].
Qed.

(** The log-in raises [FileNotFoundError] only straight after the look for
    the client secrets file. *)
Lemma log_in_not_found_inv dw advice h msg h' :
  log_in dw advice h = (Failed (FileNotFoundError msg), h') ->
  exists secrets,
    CLIENT_SECRETS_FILE dw = Some secrets
    /\ path_exists dw h secrets = false
    /\ msg = ("❌ Error: " ++ secrets ++ " not found." ++ advice)%string
    /\ h' = h ++ [PathExists (Some secrets)].
Proof.
  unfold log_in. intros E.
  apply dbind_failed_inv in E.
  destruct E as [E | (found & h1 & E1 & E)]; unfold exists_ in *.
  - destruct (CLIENT_SECRETS_FILE dw); discriminate.
  - destruct (CLIENT_SECRETS_FILE dw) as [secrets | ]; [ | discriminate].
    injection E1 as <- <-.
    destruct (path_exists dw h secrets) eqn:P; simpl in E.
    + apply dbind_failed_inv in E.
      destruct E as [E | ([] & h2 & E2 & E)].
      * apply tell_inv in E. destruct E as [_ (name & N & _)]. discriminate.
      * apply ask_inv in E. destruct E as [_ (name & N & _)]. discriminate.
    + unfold dfail in E. injection E as <- <-.
      exists secrets. auto.
Qed.

(** X18.  When [get_drive_service] succeeds, building the service is its
    last call, and the token file is in one of two states: untouched, the
    stored token having been loaded and used as it is; or rewritten once,
    just before the build, with the JSON of the very credentials the
    service is built with. *)
Theorem drive_service_token_matches
  (dw : drive_world) (advice : string) (h h' : list drive_call)
  (c : credentials) :
  get_drive_service dw advice h = (Done c, h') ->
  (valid c = true
   /\ h' = h ++ [PathExists (Some TOKEN_FILE);
                 FromAuthorizedUserFile TOKEN_FILE; Build c])
  \/ exists t,
       h' = h ++ t ++ [OpenToken TOKEN_FILE; TokenWrite (to_json c); Build c]
       /\ Forall (fun x => is_token_write x = false) t.
Proof.
  unfold get_drive_service. intros G.
  apply dbind_done_inv in G. destruct G as (found & h1 & E1 & G).
  unfold exists_ in E1. injection E1 as <- <-.
  apply dbind_done_inv in G. destruct G as (stored & h2 & E2 & G).
  apply dbind_done_inv in G. destruct G as (creds & h3 & E3 & G).
  apply dbind_done_inv in G. destruct G as ([] & h4 & E4 & G).
  apply tell_inv in E4. destruct E4 as [-> _].
  unfold dret in G. injection G as <- <-.
  assert (Fresh : forall t (c' : credentials) h5 h6 u,
             h2 = h ++ t -> Forall (fun x => is_token_write x = false) t ->
             (exists t', h5 = h2 ++ t'
                         /\ Forall (fun x => is_token_write x = false) t') ->
             save_token dw c' h5 = (Done u, h6) ->
             exists t0,
               h6 ++ [Build c']
               = h ++ t0 ++ [OpenToken TOKEN_FILE; TokenWrite (to_json c');
                             Build c']
               /\ Forall (fun x => is_token_write x = false) t0).
  { intros t c' h5 h6 u -> Ft (t' & -> & Ft') S.
    apply save_token_done_inv in S. subst h6.
    exists (t ++ t'). split; [now rewrite <- !app_assoc | now apply Forall_app]. }
  destruct (path_exists dw h TOKEN_FILE).
  - apply dbind_done_inv in E2. destruct E2 as (c0 & h5 & E5 & E2).
    apply ask_inv in E5. destruct E5 as [-> _].
    unfold dret in E2. injection E2 as <- <-.
    destruct (valid c0) eqn:V.
    + unfold dret in E3. injection E3 as <- <-.
      left. split; [exact V | now rewrite <- !app_assoc].
    + right.
      apply dbind_done_inv in E3. destruct E3 as (c' & h6 & E6 & E3).
      apply dbind_done_inv in E3. destruct E3 as (u & h7 & E7 & E3).
      unfold dret in E3. injection E3 as <- <-.
      apply (Fresh [PathExists (Some TOKEN_FILE);
                    FromAuthorizedUserFile TOKEN_FILE] c' h6 h7 u);
        [now rewrite <- app_assoc | now repeat constructor | | exact E7].
      destruct (expired c0 && truthy_str (refresh_token c0)).
      * apply ask_inv in E6. destruct E6 as [-> _].
        exists [Refresh]. split; [reflexivity | now repeat constructor].
      * apply log_in_done_inv in E6. destruct E6 as (s & _ & _ & ->).
        eexists. split; [reflexivity | now repeat constructor].
  - unfold dret in E2. injection E2 as <- <-. right.
    apply dbind_done_inv in E3. destruct E3 as (c' & h6 & E6 & E3).
    apply dbind_done_inv in E3. destruct E3 as (u & h7 & E7 & E3).
    unfold dret in E3. injection E3 as <- <-.
    apply (Fresh [PathExists (Some TOKEN_FILE)] c' h6 h7 u);
      [reflexivity | now repeat constructor | | exact E7].
    apply log_in_done_inv in E6. destruct E6 as (s & _ & _ & ->).
    eexists. split; [reflexivity | now repeat constructor].
Qed.

Lemma drive_service_token_matches_witness :
  (valid (token true false None "{fresh}") = true
   /\ [PathExists (Some TOKEN_FILE); PathExists (Some "client.json");
       FromClientSecretsFile "client.json"; RunLocalServer;
       OpenToken TOKEN_FILE; TokenWrite "{fresh}";
       Build (token true false None "{fresh}")]
      = [] ++ [PathExists (Some TOKEN_FILE);
               FromAuthorizedUserFile TOKEN_FILE;
               Build (token true false None "{fresh}")])
  \/ exists t,
       [PathExists (Some TOKEN_FILE); PathExists (Some "client.json");
        FromClientSecretsFile "client.json"; RunLocalServer;
        OpenToken TOKEN_FILE; TokenWrite "{fresh}";
        Build (token true false None "{fresh}")]
       = [] ++ t ++ [OpenToken TOKEN_FILE;
                     TokenWrite (to_json (token true false None "{fresh}"));
                     Build (token true false None "{fresh}")]
       /\ Forall (fun x => is_token_write x = false) t.
Proof.
  exact (drive_service_token_matches
           (drive_scripted None (token true false None "{fresh}")
              (Some "client.json") true true) "" [] _ _ eq_refl).
Defined.


Lemma ask_not_found {A} c (answer : list drive_call -> string + A) h msg h' :
  ask c answer h <> (Failed (FileNotFoundError msg), h').
Proof.
  intros E. apply ask_inv in E. destruct E as [_ (name & N & _)]. discriminate.
Qed.

Lemma tell_not_found c (answer : list drive_call -> option string) h msg h' :
  tell c answer h <> (Failed (FileNotFoundError msg), h').
Proof.
  intros E. apply tell_inv in E. destruct E as [_ (name & N & _)]. discriminate.
Qed.

Lemma save_token_not_found dw c h msg h' :
  save_token dw c h <> (Failed (FileNotFoundError msg), h').
Proof.
  unfold save_token. intros E. apply dbind_failed_inv in E.
  destruct E as [E | ([] & h1 & _ & E)];
    [now apply tell_not_found in E | discriminate].
Qed.

(** X20.  [get_drive_service] raises [FileNotFoundError] only when a log-in
    is needed, there being no token file, or a stored token that is not
    valid and cannot be refreshed, and the client secrets file is not
    there.  The look for that file is then its last call: nothing has
    been refreshed, no browser opened, no token written; the message
    names the file. *)
Theorem drive_service_file_not_found
  (dw : drive_world) (advice : string) (h h' : list drive_call)
  (msg : string) :
  get_drive_service dw advice h = (Failed (FileNotFoundError msg), h') ->
  exists secrets t,
    CLIENT_SECRETS_FILE dw = Some secrets
    /\ msg = ("❌ Error: " ++ secrets ++ " not found." ++ advice)%string
    /\ h' = h ++ t ++ [PathExists (Some secrets)]
    /\ path_exists dw (h ++ t) secrets = false
    /\ ((t = [PathExists (Some TOKEN_FILE)]
         /\ path_exists dw h TOKEN_FILE = false)
        \/ exists c,
             t = [PathExists (Some TOKEN_FILE);
                  FromAuthorizedUserFile TOKEN_FILE]
             /\ from_authorized_user_file dw
                  (h ++ [PathExists (Some TOKEN_FILE)]) = inr c
             /\ valid c = false
             /\ expired c && truthy_str (refresh_token c) = false).
Proof.
  unfold get_drive_service. intros G.
  apply dbind_failed_inv in G.
  destruct G as [G | (found & h1 & E1 & G)]; [discriminate | ].
  unfold exists_ in E1. injection E1 as <- <-.
  assert (Tail : forall (c' : credentials) h5,
             dbind (save_token dw c') (fun _ => dret c') h5
             <> (Failed (FileNotFoundError msg), h')).
  { intros c' h5 E. apply dbind_failed_inv in E.
    destruct E as [E | (u & h6 & _ & E)];
      [now apply save_token_not_found in E | discriminate]. }
  apply dbind_failed_inv in G.
  destruct G as [G | (stored & h2 & E2 & G)].
  { destruct (path_exists dw h TOKEN_FILE); [ | discriminate].
    apply dbind_failed_inv in G.
    destruct G as [G | (c0 & h3 & _ & G)];
      [now apply ask_not_found in G | discriminate]. }
  apply dbind_failed_inv in G.
  destruct G as [G | (creds & h3 & _ & G)].
  2:{ apply dbind_failed_inv in G.
      destruct G as [G | ([] & h4 & _ & G)];
        [now apply tell_not_found in G | discriminate]. }
  destruct (path_exists dw h TOKEN_FILE) eqn:P.
  - apply dbind_done_inv in E2. destruct E2 as (c0 & h5 & E5 & E2).
    apply ask_inv in E5. destruct E5 as [-> L].
    unfold dret in E2. injection E2 as <- <-.
    destruct (valid c0) eqn:V; [discriminate | ].
    apply dbind_failed_inv in G.
    destruct G as [G | (c' & h6 & _ & G)]; [ | now apply Tail in G].
    destruct (expired c0 && truthy_str (refresh_token c0)) eqn:R;
      [now apply ask_not_found in G | ].
    apply log_in_not_found_inv in G.
    destruct G as (secrets & S & N & -> & ->).
    exists secrets, [PathExists (Some TOKEN_FILE);
                     FromAuthorizedUserFile TOKEN_FILE].
    rewrite <- !app_assoc in *. simpl app in *.
    repeat split; auto. right. exists c0. auto.
  - unfold dret in E2. injection E2 as <- <-.
    apply dbind_failed_inv in G.
    destruct G as [G | (c' & h6 & _ & G)]; [ | now apply Tail in G].
    apply log_in_not_found_inv in G.
    destruct G as (secrets & S & N & -> & ->).
    exists secrets, [PathExists (Some TOKEN_FILE)].
    rewrite <- !app_assoc in *. simpl app in *.
    repeat split; auto.
Qed.

Lemma drive_service_file_not_found_witness :
  exists secrets t,
    CLIENT_SECRETS_FILE
      (drive_scripted None (token true false None "{fresh}")
         (Some "client.json") false true) = Some secrets
    /\ ("❌ Error: client.json not found."
        = "❌ Error: " ++ secrets ++ " not found." ++ "")%string
    /\ [PathExists (Some TOKEN_FILE); PathExists (Some "client.json")]
       = [] ++ t ++ [PathExists (Some secrets)]
    /\ path_exists
         (drive_scripted None (token true false None "{fresh}")
            (Some "client.json") false true) ([] ++ t) secrets = false
    /\ ((t = [PathExists (Some TOKEN_FILE)]
         /\ path_exists
              (drive_scripted None (token true false None "{fresh}")
                 (Some "client.json") false true) [] TOKEN_FILE = false)
        \/ exists c,
             t = [PathExists (Some TOKEN_FILE);
                  FromAuthorizedUserFile TOKEN_FILE]
             /\ from_authorized_user_file
                  (drive_scripted None (token true false None "{fresh}")
                     (Some "client.json") false true)
                  ([] ++ [PathExists (Some TOKEN_FILE)]) = inr c
             /\ valid c = false
             /\ expired c && truthy_str (refresh_token c) = false).
Proof.
  exact (drive_service_file_not_found
           (drive_scripted None (token true false None "{fresh}")
              (Some "client.json") false true) "" [] _ _ eq_refl).
Defined.
